(** * The SigNoz tracing helper (package [signoz]), embedded in Rocq

    A shallow embedding of [v1/trace/signoz/spantype.go] and
    [v1/trace/signoz/signoz.go].

    - Go strings are byte strings: Rocq's [string].
    - [SpanType] is a Go [int] with six named constants: a [Z].
    - The Go map [spanTypeMapper] is a [gmap]; indexing a Go map at a key
      that is absent gives the zero value of the value type.
    - An interface value is the record of its methods.
    - A slice is an [option (list _)]: [None] is the nil slice, [Some []]
      the empty slice that is not nil (the code tests [attributes != nil]).
    - The tracing SDK is an external collaborator.  A span is modelled by
      the ordered log of the SDK calls made on it; methods that call the
      SDK run in a small state-and-failure monad over that log, where
      failure is the process exit of [log.Fatal]. *)

From stdpp Require Import base gmap strings list.
From Stdlib Require Import ZArith Zbitwise Ascii String Lia.
From Stdlib Require Import DecimalString DecimalZ DecimalPos.

Open Scope string_scope.
Open Scope list_scope.
Open Scope Z_scope.

(** ** spantype.go *)

Module SpanTypes.

(** [type SpanType int] and its constant block. *)
Definition SpanType := Z.

Definition Unspecified : SpanType := 0.
Definition Internal : SpanType := 1.
Definition Server : SpanType := 2.
Definition Client : SpanType := 3.
Definition Producer : SpanType := 4.
Definition Consumer : SpanType := 5.

(** [type DatabasePlatform string] and its constant block. *)
Definition DatabasePlatform := string.

Definition Other : DatabasePlatform := "other_sql".
Definition MySQL : DatabasePlatform := "mysql".
Definition MariaDB : DatabasePlatform := "mariadb".
Definition Redis : DatabasePlatform := "redis".

(** [type ExternalURL string]. *)
Definition ExternalURL := string.

Record spanTypeConfig := {
  cfgSpanType : SpanType;
  cfgDatabasePlatform : DatabasePlatform;
  cfgExternalURL : ExternalURL
}.

(** [KeyValue] is declared in signoz.go; spantype.go builds values of it. *)
Record KeyValue := { Key : string; Value : string }.

(** The interface [SpanTypeOption]: one method, [apply]. *)
Record SpanTypeOption := { apply : spanTypeConfig -> spanTypeConfig }.

(** [type config func(spanTypeConfig) spanTypeConfig], with its method
    [func (fn config) apply(config spanTypeConfig) spanTypeConfig]. *)
Definition config (fn : spanTypeConfig -> spanTypeConfig) : SpanTypeOption :=
  {| apply := fun c => fn c |}.

(** The SDK's [trace.SpanKind] (external): an enumeration whose zero
    value is [SpanKindUnspecified]. *)
Inductive SpanKind :=
| SpanKindUnspecified
| SpanKindInternal
| SpanKindServer
| SpanKindClient
| SpanKindProducer
| SpanKindConsumer.

Definition spanTypeMapper : gmap Z SpanKind :=
  {[ Unspecified := SpanKindUnspecified;
     Internal := SpanKindInternal;
     Server := SpanKindServer;
     Client := SpanKindClient;
     Producer := SpanKindProducer;
     Consumer := SpanKindConsumer ]}.

(** The Go index expression [spanTypeMapper[t]]. *)
Definition spanTypeMapper_index (t : SpanType) : SpanKind :=
  default SpanKindUnspecified (spanTypeMapper !! t).

Definition DatabaseCalls (databasePlatform : DatabasePlatform) : SpanTypeOption :=
  config (fun c =>
    let c := {| cfgSpanType := Internal;
                cfgDatabasePlatform := cfgDatabasePlatform c;
                cfgExternalURL := cfgExternalURL c |} in
    let c := {| cfgSpanType := cfgSpanType c;
                cfgDatabasePlatform := databasePlatform;
                cfgExternalURL := cfgExternalURL c |} in
    c).

Definition ExternalCalls (externalURL : ExternalURL) : SpanTypeOption :=
  config (fun c =>
    let c := {| cfgSpanType := Server;
                cfgDatabasePlatform := cfgDatabasePlatform c;
                cfgExternalURL := cfgExternalURL c |} in
    let c := {| cfgSpanType := cfgSpanType c;
                cfgDatabasePlatform := cfgDatabasePlatform c;
                cfgExternalURL := externalURL |} in
    c).

(** The two attribute keys come from the SDK's semantic conventions
    (package [semconv/v1.4.0], external): [DBSystemMySQL] is
    [DBSystemKey.String("mysql")] with [DBSystemKey = "db.system"], and
    [HTTPURLKey = "http.url"]. *)
Definition semconv_DBSystemMySQL : KeyValue :=
  {| Key := "db.system"; Value := "mysql" |}.
Definition semconv_HTTPURLKey : string := "http.url".

(** [getSpanTypeAttributes] takes a pointer, which may be nil, and
    returns a slice, which is nil exactly in that case. *)
Definition getSpanTypeAttributes (p : option spanTypeConfig) : option (list KeyValue) :=
  match p with
  | None => None
  | Some c =>
      let attributes : list KeyValue := [] in
      let attributes :=
        if decide (cfgSpanType c = Internal) then
          attributes ++ [ {| Key := Key semconv_DBSystemMySQL;
                             Value := cfgDatabasePlatform c |} ]
        else if decide (cfgSpanType c = Server) then
          attributes ++ [ {| Key := semconv_HTTPURLKey;
                             Value := cfgExternalURL c |} ]
        else attributes in
      Some attributes
  end.

(** The first statements of [CreateSpan]: the default configuration and
    the loop [for _, opt := range opts]. *)
Definition defaultConfig : spanTypeConfig :=
  {| cfgSpanType := Unspecified; cfgDatabasePlatform := ""; cfgExternalURL := "" |}.

Fixpoint applyOpts (c : spanTypeConfig) (opts : list SpanTypeOption) : spanTypeConfig :=
  match opts with
  | [] => c
  | opt :: rest => applyOpts (apply opt c) rest
  end.

(** What [CreateSpan] derives from its options: the span kind it starts
    the span with and the attributes it attaches (the spec's [classify]). *)
Definition classify (opts : list SpanTypeOption) : SpanKind * option (list KeyValue) :=
  let c := applyOpts defaultConfig opts in
  (spanTypeMapper_index (cfgSpanType c), getSpanTypeAttributes (Some c)).

End SpanTypes.

(** ** Go's [strings.ToLower] (standard library, external)

    [InitTracer] compares [strings.ToLower(s.insecure)] with string
    constants.  [ToLower] lowers ASCII-only strings byte by byte and maps
    [unicode.ToLower] over the UTF-8 runes of any other string. *)

Module GoStrings.

(** The value of a byte, and Go's conversion [byte(x)] of an integer:
    its low eight bits. *)
Definition byte_val (c : ascii) : Z := Z.of_N (N_of_ascii c).

Definition byte_of (x : Z) : ascii :=
  Ascii (Z.testbit x 0) (Z.testbit x 1) (Z.testbit x 2) (Z.testbit x 3)
        (Z.testbit x 4) (Z.testbit x 5) (Z.testbit x 6) (Z.testbit x 7).

(** The slice expressions [s[n:]] and [s[:n]]. *)
Fixpoint sliceFrom (s : string) (n : nat) : string :=
  match n, s with
  | S n', String _ rest => sliceFrom rest n'
  | _, _ => s
  end.

Fixpoint sliceTo (s : string) (n : nat) : string :=
  match n, s with
  | S n', String c rest => String c (sliceTo rest n')
  | _, _ => ""
  end.

(** Package [unicode/utf8]. *)
Definition RuneSelf : Z := 0x80.
Definition RuneError : Z := 0xFFFD.
Definition MaxRune : Z := 0x10FFFF.
Definition surrogateMin : Z := 0xD800.
Definition surrogateMax : Z := 0xDFFF.

Definition between (lo x hi : Z) : bool := (lo <=? x) && (x <=? hi).

(** [utf8.DecodeRuneInString]: the first rune of [s] and its width in
    bytes; [(RuneError, 0)] on the empty string and [(RuneError, 1)] on
    an encoding that is not valid (too short, not the shortest form, a
    surrogate half or beyond [MaxRune]). *)
Definition DecodeRuneInString (s : string) : Z * nat :=
  match s with
  | "" => (RuneError, 0%nat)
  | String c0 t0 =>
      let b0 := byte_val c0 in
      if b0 <? RuneSelf then (b0, 1%nat)
      else if between 0xC2 b0 0xDF then
        match t0 with
        | String c1 _ =>
            let b1 := byte_val c1 in
            if between 0x80 b1 0xBF
            then (Z.lor (Z.shiftl (Z.land b0 0x1F) 6) (Z.land b1 0x3F), 2%nat)
            else (RuneError, 1%nat)
        | _ => (RuneError, 1%nat)
        end
      else if between 0xE0 b0 0xEF then
        match t0 with
        | String c1 (String c2 _) =>
            let b1 := byte_val c1 in
            let b2 := byte_val c2 in
            let lo := if b0 =? 0xE0 then 0xA0 else 0x80 in
            let hi := if b0 =? 0xED then 0x9F else 0xBF in
            if between lo b1 hi && between 0x80 b2 0xBF
            then (Z.lor (Z.lor (Z.shiftl (Z.land b0 0x0F) 12)
                               (Z.shiftl (Z.land b1 0x3F) 6))
                        (Z.land b2 0x3F), 3%nat)
            else (RuneError, 1%nat)
        | _ => (RuneError, 1%nat)
        end
      else if between 0xF0 b0 0xF4 then
        match t0 with
        | String c1 (String c2 (String c3 _)) =>
            let b1 := byte_val c1 in
            let b2 := byte_val c2 in
            let b3 := byte_val c3 in
            let lo := if b0 =? 0xF0 then 0x90 else 0x80 in
            let hi := if b0 =? 0xF4 then 0x8F else 0xBF in
            if between lo b1 hi && between 0x80 b2 0xBF && between 0x80 b3 0xBF
            then (Z.lor (Z.lor (Z.lor (Z.shiftl (Z.land b0 0x07) 18)
                                      (Z.shiftl (Z.land b1 0x3F) 12))
                               (Z.shiftl (Z.land b2 0x3F) 6))
                        (Z.land b3 0x3F), 4%nat)
            else (RuneError, 1%nat)
        | _ => (RuneError, 1%nat)
        end
      else (RuneError, 1%nat)
  end.

(** [utf8.RuneLen]: the number of bytes of the encoding of a rune, [-1]
    when it has none. *)
Definition RuneLen (r : Z) : Z :=
  if r <? 0 then -1
  else if r <=? 0x7F then 1
  else if r <=? 0x7FF then 2
  else if between surrogateMin r surrogateMax then -1
  else if r <=? 0xFFFF then 3
  else if r <=? MaxRune then 4
  else -1.

(** [utf8.AppendRune] on an empty buffer: the encoding of a rune, that of
    [RuneError] for a value that is not a valid rune. *)
Definition encode3 (r : Z) : string :=
  String (byte_of (Z.lor 0xE0 (Z.shiftr r 12)))
    (String (byte_of (Z.lor 0x80 (Z.land (Z.shiftr r 6) 0x3F)))
       (String (byte_of (Z.lor 0x80 (Z.land r 0x3F))) "")).

Definition EncodeRune (r : Z) : string :=
  if between 0 r 0x7F then String (byte_of r) ""
  else if between 0 r 0x7FF then
    String (byte_of (Z.lor 0xC0 (Z.shiftr r 6)))
      (String (byte_of (Z.lor 0x80 (Z.land r 0x3F))) "")
  else if (r <? 0) || (MaxRune <? r) || between surrogateMin r surrogateMax
  then encode3 RuneError
  else if r <=? 0xFFFF then encode3 r
  else
    String (byte_of (Z.lor 0xF0 (Z.shiftr r 18)))
      (String (byte_of (Z.lor 0x80 (Z.land (Z.shiftr r 12) 0x3F)))
         (String (byte_of (Z.lor 0x80 (Z.land (Z.shiftr r 6) 0x3F)))
            (String (byte_of (Z.lor 0x80 (Z.land r 0x3F))) ""))).

Section Mapping.

Variable mapping : Z -> Z.

(** [strings.Map], second loop: every rune of the rest of the string is
    mapped and written; a negative result drops the rune. *)
Fixpoint Map_rest (fuel : nat) (s : string) : string :=
  match fuel, s with
  | S fuel', String _ _ =>
      let '(c, width) := DecodeRuneInString s in
      let r := mapping c in
      (if 0 <=? r
       then (if r <? RuneSelf then String (byte_of r) "" else EncodeRune r)
       else "")
      +:+ Map_rest fuel' (sliceFrom s width)
  | _, _ => ""
  end.

(** [strings.Map], first loop: look for the first rune that the mapping
    changes (or the first byte that is not valid UTF-8).  [None] when the
    loop runs to the end of the string; otherwise what the builder holds
    at the end of [Map], without the prefix [s[:i]] that was copied. *)
Fixpoint Map_first (fuel : nat) (s : string) : option (nat * string) :=
  match fuel, s with
  | S fuel', String _ _ =>
      let '(c, w) := DecodeRuneInString s in
      let r := mapping c in
      let next :=
        match Map_first fuel' (sliceFrom s w) with
        | Some (i, out) => Some ((w + i)%nat, out)
        | None => None
        end in
      if (r =? c) && negb (c =? RuneError) then next
      else if (c =? RuneError) && negb (Nat.eqb w 1) && (r =? c) then next
      else
        let width := if c =? RuneError then w else Z.to_nat (RuneLen c) in
        Some (0%nat,
              (if 0 <=? r then EncodeRune r else "")
              +:+ Map_rest fuel' (sliceFrom s width))
  | _, _ => None
  end.

Definition Map (s : string) : string :=
  match Map_first (String.length s) s with
  | None => s
  | Some (i, out) => sliceTo s i +:+ out
  end.

End Mapping.

(** [strings.ToLower], first loop: is the string ASCII only, and does it
    hold an upper-case ASCII letter (before its first byte that is not
    ASCII, where the loop breaks). *)
Definition isUpperByte (c : ascii) : bool :=
  between (byte_val "A") (byte_val c) (byte_val "Z").

Fixpoint ToLower_scan (s : string) (hasUpper : bool) : bool * bool :=
  match s with
  | "" => (true, hasUpper)
  | String c rest =>
      if RuneSelf <=? byte_val c then (false, hasUpper)
      else ToLower_scan rest (hasUpper || isUpperByte c)
  end.

(** The loop of the ASCII fast path: [c += 'a' - 'A'] on upper-case
    letters. *)
Fixpoint ToLower_ascii (s : string) : string :=
  match s with
  | "" => ""
  | String c rest =>
      String (if isUpperByte c
              then byte_of (byte_val c + (byte_val "a" - byte_val "A"))
              else c)
             (ToLower_ascii rest)
  end.

Section ToLower.

(** [unicode.ToLower], a table of the Unicode standard. *)
Variable unicode_ToLower : Z -> Z.

Definition ToLower (s : string) : string :=
  let '(isASCII, hasUpper) := ToLower_scan s false in
  if isASCII then
    if negb hasUpper then s else ToLower_ascii s
  else Map unicode_ToLower s.

End ToLower.

(** A fragment of [unicode.ToLower]: the ASCII and Latin-1 letters and
    the two letters outside ASCII whose lower case is an ASCII letter
    (U+0130 and U+212A, the Kelvin sign). Runes outside the fragment are
    left unchanged. *)
Definition toLower_fragment (r : Z) : Z :=
  if between 0x41 r 0x5A then r + 32
  else if between 0xC0 r 0xDE && negb (r =? 0xD7) then r + 32
  else if r =? 0x130 then 0x69
  else if r =? 0x212A then 0x6B
  else r.

(** The string of a sequence of byte values, [string([]byte{...})]. *)
Fixpoint bytes (l : list Z) : string :=
  match l with
  | [] => ""
  | b :: rest => String (byte_of b) (bytes rest)
  end.

(** Predicates on byte strings. *)
Fixpoint allBytes (P : ascii -> bool) (s : string) : bool :=
  match s with
  | "" => true
  | String c rest => P c && allBytes P rest
  end.

Definition isASCIIByte (c : ascii) : bool := byte_val c <? RuneSelf.

(** An ASCII byte other than the letters i and k. *)
Definition isPlainByte (c : ascii) : bool :=
  isASCIIByte c && negb (byte_val c =? 0x69) && negb (byte_val c =? 0x6B).

End GoStrings.

(** ** signoz.go *)

Module Signoz.
Import SpanTypes GoStrings.

Record signoz := {
  serviceName : string;
  collectorURL : string;
  insecure : string
}.

Record Config := {
  ServiceName : string;
  CollectorURL : string;
  Insecure : string
}.

(** The SDK's tracer handle (the package variable [tracer]). *)
Record Tracer := { tracerName : string }.

(** [New] sets the package variable [tracer] and returns the receiver. *)
Definition New (cfg : Config) : Tracer * signoz :=
  ({| tracerName := ServiceName cfg |},
   {| serviceName := ServiceName cfg;
      collectorURL := CollectorURL cfg;
      insecure := Insecure cfg |}).

(** *** InitTracer: the options of the gRPC client *)

Inductive otlptracegrpc_Option :=
| WithTLSCredentials
| WithInsecure
| WithEndpoint (endpoint : string).

Section InitTracer.

Variable unicode_ToLower : Z -> Z.

(** The [if] statement that assigns [secureOption]. *)
Definition InitTracer_secureOption (s : signoz) : otlptracegrpc_Option :=
  if String.eqb (ToLower unicode_ToLower (insecure s)) "false"
     || String.eqb (insecure s) "0"
     || String.eqb (ToLower unicode_ToLower (insecure s)) "f"
  then WithTLSCredentials
  else WithInsecure.

(** The arguments of [otlptracegrpc.NewClient].  The exporter, the
    resources and the tracer provider that [InitTracer] then builds are
    objects of the SDK. *)
Definition InitTracer_clientOptions (s : signoz) : list otlptracegrpc_Option :=
  [InitTracer_secureOption s; WithEndpoint (collectorURL s)].

End InitTracer.

(** The flag as the specification words it: the string is "parsed
    case-insensitively against {false, 0, f}".  Two strings are equal
    without regard to case when they have the same length and their bytes
    agree once the upper-case ASCII letters are lowered. *)
Definition foldByte (c : ascii) : ascii :=
  if between 0x41 (byte_val c) 0x5A then byte_of (byte_val c + 0x20) else c.

Fixpoint equalFold (s t : string) : bool :=
  match s, t with
  | "", "" => true
  | String a s', String b t' => Ascii.eqb (foldByte a) (foldByte b) && equalFold s' t'
  | _, _ => false
  end.

Definition spec_selectsTLS (flag : string) : bool :=
  existsb (equalFold flag) ["false"; "0"; "f"].

(** *** Spans *)

(** A Go [error] that is not nil: its method [Error()]. A nil [error] is
    [None]. *)
Record error := { Error : string }.

(** Package [codes] of the SDK. *)
Inductive Code := codes_Unset | codes_Error | codes_Ok.

(** [attribute.String(k, v)]. *)
Inductive attribute_KeyValue := attribute_String (k v : string).

Definition attribute_Key (a : attribute_KeyValue) : string :=
  match a with attribute_String k _ => k end.

Definition attribute_Value (a : attribute_KeyValue) : string :=
  match a with attribute_String _ v => v end.

(** The methods of [trace.Span] that the package calls. *)
Inductive SpanCall :=
| Span_SetStatus (code : Code) (description : string)
| Span_RecordError (err : error)
| Span_SetAttributes (kv : list attribute_KeyValue)
| Span_AddEvent (name : string) (attrs : list attribute_KeyValue)
| Span_End.

(** A span: what [tracer.Start] was given, and the calls made on the span
    since, oldest first. *)
Record Span := {
  spanName : string;
  spanKind : SpanKind;
  spanCalls : list SpanCall
}.

(** What a recording span holds after its calls. *)
Definition spanEvents (sp : Span) : list (string * list attribute_KeyValue) :=
  flat_map (fun c => match c with Span_AddEvent n a => [(n, a)] | _ => [] end)
           (spanCalls sp).

Definition spanAttributes (sp : Span) : list attribute_KeyValue :=
  flat_map (fun c => match c with Span_SetAttributes kv => kv | _ => [] end)
           (spanCalls sp).

Definition spanStatuses (sp : Span) : list (Code * string) :=
  flat_map (fun c => match c with Span_SetStatus co d => [(co, d)] | _ => [] end)
           (spanCalls sp).

(** *** The monad of the methods: a span as state, [log.Fatal] as failure *)

Inductive Outcome (A : Type) :=
| Done (a : A)
| Fatal (v : string).
Arguments Done {A} a.
Arguments Fatal {A} v.

Definition M (A : Type) : Type := Span -> Outcome (A * Span).

#[global] Instance M_ret : MRet M := fun A a sp => Done (a, sp).

#[global] Instance M_bind : MBind M := fun A B f m sp =>
  match m sp with
  | Done (a, sp') => f a sp'
  | Fatal v => Fatal v
  end.

(** [log.Fatal(v)]: the process exits. *)
Definition log_Fatal {A} (v : string) : M A := fun _ => Fatal v.

(** One call on the span. *)
Definition call (c : SpanCall) : M unit :=
  fun sp => Done (tt, {| spanName := spanName sp;
                         spanKind := spanKind sp;
                         spanCalls := spanCalls sp ++ [c] |}).

(** [tracer.Start(ctx, spanName, trace.WithSpanKind(kind))]. *)
Definition tracer_Start (name : string) (kind : SpanKind) : Span :=
  {| spanName := name; spanKind := kind; spanCalls := [] |}.

(** *** The methods *)

Definition EndSpan : M unit := call Span_End.

Definition SetErrorSpan (err : error) : M unit :=
  call (Span_SetStatus codes_Error (Error err)) ;;
  call (Span_RecordError err).

(** [attribute.String(string(item.Key), string(item.Value))]. *)
Definition toAttribute (item : KeyValue) : attribute_KeyValue :=
  attribute_String (Key item) (Value item).

(** The loop [for _, item := range keyValue] of [SetAttributes] and of
    [AddEvent], from the slice built so far. *)
Fixpoint appendAttributes (kv : list attribute_KeyValue) (keyValue : list KeyValue)
  : list attribute_KeyValue :=
  match keyValue with
  | [] => kv
  | item :: rest => appendAttributes (kv ++ [toAttribute item]) rest
  end.

Definition SetAttributes (keyValue : list KeyValue) : M unit :=
  let kv := appendAttributes [] keyValue in
  call (Span_SetAttributes kv).

Definition AddEvent (name : string) (keyValue : list KeyValue) : M unit :=
  let attributes := appendAttributes [] keyValue in
  call (Span_AddEvent name attributes).

(** [CreateSpan]: the new span after the method has returned.  [err] is
    [None] for a nil error. *)
Definition CreateSpan (name : string) (err : option error)
    (opts : list SpanTypeOption) : Outcome (unit * Span) :=
  let spanTypeConfig := applyOpts defaultConfig opts in
  let span := tracer_Start name (spanTypeMapper_index (cfgSpanType spanTypeConfig)) in
  ((match err with
    | Some e =>
        call (Span_SetStatus codes_Error (Error e)) ;;
        call (Span_RecordError e)
    | None => mret tt
    end) ;;
   let attributes := getSpanTypeAttributes (Some spanTypeConfig) in
   match attributes with
   | Some a => SetAttributes a
   | None => mret tt
   end) span.

(** [TraceHttpRequest], on the span that [ctx] carries. *)
Definition TraceHttpRequest (token userId queryParam payload : string) : M unit :=
  let keyValueEvent :=
    [ {| Key := "Token"; Value := token |};
      {| Key := "Query Param"; Value := queryParam |};
      {| Key := "Payload"; Value := payload |} ] in
  AddEvent "Request" keyValueEvent ;;
  let keyValueAttributes := [ {| Key := "userId"; Value := userId |} ] in
  SetAttributes keyValueAttributes.

(** [strconv.Itoa]: the decimal digits of an integer, after a minus sign
    when it is negative. *)
Definition strconv_Itoa (i : Z) : string := NilZero.string_of_int (Z.to_int i).

Section TraceHttpResponse.

(** The values that [data] and [errors] (of type [interface{}]) range
    over, and [json.Marshal] on them: the bytes, or an error. *)
Variable any : Type.
Variable json_Marshal : any -> string + error.

(** [TraceHttpResponse], on the span that [ctx] carries. [log.Fatal]
    prints the error and exits. *)
Definition TraceHttpResponse (code : Z) (message : string) (data errors : any)
  : M unit :=
  dataString ← match json_Marshal data with
               | inl b => mret b
               | inr e => log_Fatal (Error e)
               end;
  errorsString ← match json_Marshal errors with
                 | inl b => mret b
                 | inr e => log_Fatal (Error e)
                 end;
  let keyValue :=
    [ {| Key := "Code"; Value := strconv_Itoa code |};
      {| Key := "Message"; Value := message |};
      {| Key := "Data"; Value := dataString |};
      {| Key := "Errors"; Value := errorsString |} ] in
  AddEvent "Response" keyValue.

End TraceHttpResponse.

End Signoz.

(** ** The options a caller can build

    The method [apply] of [SpanTypeOption] and the type [config] are not
    exported: outside the package an option is the result of
    [DatabaseCalls] or of [ExternalCalls]. *)

Module PublicOptions.
Import SpanTypes.

Inductive PublicOption :=
| OptDatabaseCalls (databasePlatform : DatabasePlatform)
| OptExternalCalls (externalURL : ExternalURL).

Definition toOption (o : PublicOption) : SpanTypeOption :=
  match o with
  | OptDatabaseCalls p => DatabaseCalls p
  | OptExternalCalls u => ExternalCalls u
  end.

(** The span type that the option writes. *)
Definition typeOf (o : PublicOption) : SpanType :=
  match o with
  | OptDatabaseCalls _ => Internal
  | OptExternalCalls _ => Server
  end.

(** The platform of the last [DatabaseCalls] of a list, the URL of its
    last [ExternalCalls], and the span type of its last option; [d] when
    there is none. *)
Fixpoint lastPlatform (d : DatabasePlatform) (l : list PublicOption) : DatabasePlatform :=
  match l with
  | [] => d
  | OptDatabaseCalls p :: rest => lastPlatform p rest
  | OptExternalCalls _ :: rest => lastPlatform d rest
  end.

Fixpoint lastURL (d : ExternalURL) (l : list PublicOption) : ExternalURL :=
  match l with
  | [] => d
  | OptDatabaseCalls _ :: rest => lastURL d rest
  | OptExternalCalls u :: rest => lastURL u rest
  end.

Fixpoint lastType (d : SpanType) (l : list PublicOption) : SpanType :=
  match l with
  | [] => d
  | o :: rest => lastType (typeOf o) rest
  end.

End PublicOptions.

(** ** What a method adds to a span *)

Module SpanFrames.
Import Signoz.

(** The new calls that a method makes on a span. *)
Definition extended (sp sp' : Span) (new : list SpanCall) : Prop :=
  spanName sp' = spanName sp
  /\ spanKind sp' = spanKind sp
  /\ spanCalls sp' = spanCalls sp ++ new.

(** The calls that annotate a span: an event or attributes. *)
Definition annotates (c : SpanCall) : bool :=
  match c with
  | Span_AddEvent _ _ | Span_SetAttributes _ => true
  | _ => false
  end.

End SpanFrames.

(** ** InitTracer, whole

    The exporter, the resource and the tracer provider are objects of
    the SDK: their types are parameters, and so are the two constructors
    that can fail. The state is the tracer provider registered with
    [otel.SetTracerProvider], if any. *)

Module SignozInit.
Import GoStrings Signoz.

Section InitTracer.

Variable unicode_ToLower : Z -> Z.
Variables Exporter Resource : Type.

(** [otlptrace.New(ctx, otlptracegrpc.NewClient(opts...))] and
    [resource.New(ctx, resource.WithAttributes(attrs...))]. *)
Variable otlptrace_New : list otlptracegrpc_Option -> Exporter + error.
Variable resource_New : list attribute_KeyValue -> Resource + error.

(** [sdktrace.NewTracerProvider(sdktrace.WithBatcher(exporter),
    sdktrace.WithResource(resources))]. *)
Record TracerProvider := {
  providerExporter : Exporter;
  providerResource : Resource
}.

(** [InitTracer]: the exporter whose [Shutdown] is returned, and the
    provider registered afterwards. [log.Fatalf] with the verb [%v]
    prints the message of the error. *)
Definition InitTracer (s : signoz) (registered : option TracerProvider)
  : Outcome (Exporter * option TracerProvider) :=
  let secureOption := InitTracer_secureOption unicode_ToLower s in
  match otlptrace_New [secureOption; WithEndpoint (collectorURL s)] with
  | inr err => Fatal ("Failed to create exporter: " +:+ Error err)
  | inl exporter =>
      match resource_New [ attribute_String "service.name" (serviceName s);
                           attribute_String "library.language" "go" ] with
      | inr err => Fatal ("Could not set resources: " +:+ Error err)
      | inl resources =>
          Done (exporter,
                Some {| providerExporter := exporter;
                        providerResource := resources |})
      end
  end.

End InitTracer.

End SignozInit.

(** ** The flags that select TLS, listed

    Every way of writing a lower-case word with some of its letters in
    upper case. *)

Module FlagList.
Import GoStrings.

Definition upperByte (c : ascii) : ascii :=
  if between 0x61 (byte_val c) 0x7A then byte_of (byte_val c - 0x20) else c.

Fixpoint capitalisations (s : string) : list string :=
  match s with
  | "" => [""]
  | String c rest =>
      flat_map (fun t => [String c t; String (upperByte c) t])
               (capitalisations rest)
  end.

Definition tlsFlags : list string :=
  capitalisations "false" ++ ["0"] ++ capitalisations "f".

End FlagList.

(** * Properties *)

(** ** The span classifier *)

Module ClassifierSpec.
Import SpanTypes.

Lemma applyOpts_app (c : spanTypeConfig) (xs ys : list SpanTypeOption) :
  applyOpts c (xs ++ ys) = applyOpts (applyOpts c xs) ys.
Proof.
  revert c. induction xs as [|o xs IH]; intros c; simpl; [reflexivity|].
  apply IH.
Qed.

Lemma applyOpts_fold (c : spanTypeConfig) (opts : list SpanTypeOption) :
  applyOpts c opts = fold_left (fun acc o => apply o acc) opts c.
Proof.
  revert c. induction opts as [|o opts IH]; intros c; simpl; [reflexivity|].
  apply IH.
Qed.

Lemma applyOpts_snoc (c : spanTypeConfig) (opts : list SpanTypeOption)
    (o : SpanTypeOption) :
  applyOpts c (opts ++ [o]) = apply o (applyOpts c opts).
Proof. rewrite applyOpts_app. reflexivity. Qed.

Lemma getSpanTypeAttributes_Internal (c : spanTypeConfig) :
  cfgSpanType c = Internal ->
  getSpanTypeAttributes (Some c)
  = Some [ {| Key := "db.system"; Value := cfgDatabasePlatform c |} ].
Proof.
  intros H. unfold getSpanTypeAttributes. rewrite H.
  destruct (decide (Internal = Internal)) as [_|n]; [reflexivity|].
  exfalso. apply n. reflexivity.
Qed.

Lemma getSpanTypeAttributes_Server (c : spanTypeConfig) :
  cfgSpanType c = Server ->
  getSpanTypeAttributes (Some c)
  = Some [ {| Key := "http.url"; Value := cfgExternalURL c |} ].
Proof.
  intros H. unfold getSpanTypeAttributes. rewrite H.
  destruct (decide (Server = Internal)) as [e|_]; [discriminate e|].
  destruct (decide (Server = Server)) as [_|n]; [reflexivity|].
  exfalso. apply n. reflexivity.
Qed.

Lemma getSpanTypeAttributes_not_nil (c : spanTypeConfig) :
  exists attrs, getSpanTypeAttributes (Some c) = Some attrs.
Proof. unfold getSpanTypeAttributes. eexists. reflexivity. Qed.

Lemma classify_last_DatabaseCalls (opts : list SpanTypeOption) (p : DatabasePlatform) :
  classify (opts ++ [DatabaseCalls p])
  = (SpanKindInternal, Some [ {| Key := "db.system"; Value := p |} ]).
Proof.
  unfold classify. rewrite applyOpts_snoc. cbn [DatabaseCalls config apply].
  rewrite getSpanTypeAttributes_Internal by reflexivity. reflexivity.
Qed.

Lemma classify_last_ExternalCalls (opts : list SpanTypeOption) (u : ExternalURL) :
  classify (opts ++ [ExternalCalls u])
  = (SpanKindServer, Some [ {| Key := "http.url"; Value := u |} ]).
Proof.
  unfold classify. rewrite applyOpts_snoc. cbn [ExternalCalls config apply].
  rewrite getSpanTypeAttributes_Server by reflexivity. reflexivity.
Qed.

Lemma applyOpts_two_last (opts : list SpanTypeOption) (o1 o2 : SpanTypeOption) :
  applyOpts defaultConfig (opts ++ [o1; o2])
  = apply o2 (apply o1 (applyOpts defaultConfig opts)).
Proof. rewrite applyOpts_app. reflexivity. Qed.

Lemma spanTypeMapper_index_cases (t : SpanType) :
  spanTypeMapper_index t
  = match t with
    | 1 => SpanKindInternal
    | 2 => SpanKindServer
    | 3 => SpanKindClient
    | 4 => SpanKindProducer
    | 5 => SpanKindConsumer
    | _ => SpanKindUnspecified
    end.
Proof.
  destruct (decide (t = 0)) as [->|H0]; [reflexivity|].
  destruct (decide (t = 1)) as [->|H1]; [reflexivity|].
  destruct (decide (t = 2)) as [->|H2]; [reflexivity|].
  destruct (decide (t = 3)) as [->|H3]; [reflexivity|].
  destruct (decide (t = 4)) as [->|H4]; [reflexivity|].
  destruct (decide (t = 5)) as [->|H5]; [reflexivity|].
  unfold spanTypeMapper_index, spanTypeMapper,
    Unspecified, Internal, Server, Client, Producer, Consumer.
  rewrite !lookup_insert_ne, lookup_singleton_ne by congruence.
  destruct t as [|q|q]; [reflexivity| |reflexivity].
  destruct q as [[[q|q|]|[q|q|]|]|[[q|q|]|[q|q|]|]|]; try reflexivity; congruence.
Qed.

Lemma getSpanTypeAttributes_cases (c : spanTypeConfig) :
  getSpanTypeAttributes (Some c)
  = Some match cfgSpanType c with
         | 1 => [ {| Key := "db.system"; Value := cfgDatabasePlatform c |} ]
         | 2 => [ {| Key := "http.url"; Value := cfgExternalURL c |} ]
         | _ => []
         end.
Proof.
  unfold getSpanTypeAttributes, Internal, Server.
  destruct (decide (cfgSpanType c = 1)) as [->|H1]; [reflexivity|].
  destruct (decide (cfgSpanType c = 2)) as [->|H2]; [reflexivity|].
  destruct (cfgSpanType c) as [|q|q]; [reflexivity| |reflexivity].
  destruct q as [[q|q|]|[q|q|]|]; try reflexivity; congruence.
Qed.

(** C3, as the code has it.  The configuration that [CreateSpan]
    classifies is the fold, from left to right, of the options over the
    default configuration.  When [DatabaseCalls p] is applied after
    [ExternalCalls u], after any other options, the configuration is
    span type Internal, platform [p] and URL [u]: the span type and the
    platform are those of the option applied last, and the URL that the
    earlier option wrote is kept.  In the other order it is span type
    Server, platform [p] and URL [u].  So the two orders differ in the
    span type only, and the configuration holds both values.  The span
    kind and the attributes are those of the option applied last alone. *)
Theorem options_fold_last_writer :
  forall (opts : list SpanTypeOption) (p : DatabasePlatform) (u : ExternalURL),
    applyOpts defaultConfig opts
      = fold_left (fun acc o => apply o acc) opts
          {| cfgSpanType := 0; cfgDatabasePlatform := ""; cfgExternalURL := "" |}
    /\ applyOpts defaultConfig (opts ++ [ExternalCalls u; DatabaseCalls p])
       = {| cfgSpanType := 1; cfgDatabasePlatform := p; cfgExternalURL := u |}
    /\ applyOpts defaultConfig (opts ++ [DatabaseCalls p; ExternalCalls u])
       = {| cfgSpanType := 2; cfgDatabasePlatform := p; cfgExternalURL := u |}
    /\ classify (opts ++ [ExternalCalls u; DatabaseCalls p])
       = (SpanKindInternal, Some [ {| Key := "db.system"; Value := p |} ])
    /\ classify (opts ++ [ExternalCalls u; DatabaseCalls p]) = classify [DatabaseCalls p]
    /\ classify (opts ++ [DatabaseCalls p; ExternalCalls u])
       = (SpanKindServer, Some [ {| Key := "http.url"; Value := u |} ])
    /\ classify (opts ++ [DatabaseCalls p; ExternalCalls u]) = classify [ExternalCalls u]
    /\ classify (opts ++ [ExternalCalls u; DatabaseCalls p])
         <> classify (opts ++ [DatabaseCalls p; ExternalCalls u]).
Proof.
  intros opts p u.
  assert (Hdb : classify (opts ++ [ExternalCalls u; DatabaseCalls p])
                = (SpanKindInternal, Some [ {| Key := "db.system"; Value := p |} ])).
  { change [ExternalCalls u; DatabaseCalls p]
      with ([ExternalCalls u] ++ [DatabaseCalls p]).
    rewrite app_assoc. apply classify_last_DatabaseCalls. }
  assert (Hext : classify (opts ++ [DatabaseCalls p; ExternalCalls u])
                 = (SpanKindServer, Some [ {| Key := "http.url"; Value := u |} ])).
  { change [DatabaseCalls p; ExternalCalls u]
      with ([DatabaseCalls p] ++ [ExternalCalls u]).
    rewrite app_assoc. apply classify_last_ExternalCalls. }
  split; [apply applyOpts_fold|].
  split; [rewrite applyOpts_two_last; reflexivity|].
  split; [rewrite applyOpts_two_last; reflexivity|].
  split; [exact Hdb|].
  split; [rewrite Hdb; reflexivity|].
  split; [exact Hext|].
  split; [rewrite Hext; reflexivity|].
  rewrite Hdb, Hext. discriminate.
Qed.

(** C3, as stated, fails: the configuration after
    [ExternalCalls("https://example.com")] and then [DatabaseCalls(MySQL)]
    is not the one that [DatabaseCalls(MySQL)], the option applied last,
    gives alone.  It holds the platform of the one and the URL of the
    other. *)
Lemma options_last_keeps_earlier_field :
  applyOpts defaultConfig [ExternalCalls "https://example.com"; DatabaseCalls MySQL]
    <> applyOpts defaultConfig [DatabaseCalls MySQL]
  /\ applyOpts defaultConfig [ExternalCalls "https://example.com"; DatabaseCalls MySQL]
     = {| cfgSpanType := 1; cfgDatabasePlatform := "mysql";
          cfgExternalURL := "https://example.com" |}
  /\ applyOpts defaultConfig [DatabaseCalls MySQL]
     = {| cfgSpanType := 1; cfgDatabasePlatform := "mysql"; cfgExternalURL := "" |}.
Proof.
  split; [|split; reflexivity].
  cbn. intros H. discriminate H.
Qed.

(** C4. With no option the configuration is the default one: span type
    Unspecified, empty platform, empty URL; the span kind is Unspecified
    and the attribute list is empty (and not nil). *)
Theorem classify_no_options :
  applyOpts defaultConfig [] = defaultConfig
  /\ cfgSpanType defaultConfig = Unspecified
  /\ cfgDatabasePlatform defaultConfig = ""
  /\ cfgExternalURL defaultConfig = ""
  /\ classify [] = (SpanKindUnspecified, Some []).
Proof. repeat split. Qed.

(** C5. [DatabaseCalls(MySQL)] alone: span kind Internal and exactly one
    attribute, [db.system = mysql]; the key is the one of the semantic
    convention's [DBSystemMySQL]. *)
Theorem classify_DatabaseCalls_MySQL :
  classify [DatabaseCalls MySQL]
    = (SpanKindInternal, Some [ {| Key := "db.system"; Value := "mysql" |} ])
  /\ Key semconv_DBSystemMySQL = "db.system".
Proof. split; [apply (classify_last_DatabaseCalls [] MySQL)|reflexivity]. Qed.

(** C6. [ExternalCalls(u)] alone, for every URL [u]: span kind Server and
    exactly one attribute, [http.url = u]; so at
    [u = "https://example.com"]. *)
Theorem classify_ExternalCalls :
  (forall u : ExternalURL,
      classify [ExternalCalls u]
      = (SpanKindServer, Some [ {| Key := semconv_HTTPURLKey; Value := u |} ]))
  /\ semconv_HTTPURLKey = "http.url"
  /\ classify [ExternalCalls "https://example.com"]
     = (SpanKindServer,
        Some [ {| Key := "http.url"; Value := "https://example.com" |} ]).
Proof.
  split; [intros u; apply (classify_last_ExternalCalls [] u)|].
  split; [reflexivity|apply (classify_last_ExternalCalls [])].
Qed.

(** C9. The table [spanTypeMapper] has exactly six entries, one for each
    of the six span types, each mapped to the span kind of the same name;
    no two span types share a span kind. *)
Theorem spanTypeMapper_identity :
  spanTypeMapper !! Unspecified = Some SpanKindUnspecified
  /\ spanTypeMapper !! Internal = Some SpanKindInternal
  /\ spanTypeMapper !! Server = Some SpanKindServer
  /\ spanTypeMapper !! Client = Some SpanKindClient
  /\ spanTypeMapper !! Producer = Some SpanKindProducer
  /\ spanTypeMapper !! Consumer = Some SpanKindConsumer
  /\ List.map spanTypeMapper_index
       [Unspecified; Internal; Server; Client; Producer; Consumer]
     = [SpanKindUnspecified; SpanKindInternal; SpanKindServer;
        SpanKindClient; SpanKindProducer; SpanKindConsumer]
  /\ size spanTypeMapper = 6%nat
  /\ NoDup (List.map snd (map_to_list spanTypeMapper)).
Proof.
  repeat (split; [reflexivity|]).
  vm_compute.
  repeat (constructor; [rewrite ?list_elem_of_In; simpl; intuition discriminate|]).
  constructor.
Qed.

(** C10. On every configuration, [DatabaseCalls p] writes the span type
    and the platform and leaves the URL as it was; [ExternalCalls u]
    writes the span type and the URL and leaves the platform as it was.
    So after both, in either order, the configuration holds the platform
    and the URL together: nothing in the code keeps them apart. *)
Theorem options_frame :
  forall (c : spanTypeConfig) (p : DatabasePlatform) (u : ExternalURL),
    apply (DatabaseCalls p) c
      = {| cfgSpanType := Internal; cfgDatabasePlatform := p;
           cfgExternalURL := cfgExternalURL c |}
    /\ cfgExternalURL (apply (DatabaseCalls p) c) = cfgExternalURL c
    /\ apply (ExternalCalls u) c
       = {| cfgSpanType := Server; cfgDatabasePlatform := cfgDatabasePlatform c;
            cfgExternalURL := u |}
    /\ cfgDatabasePlatform (apply (ExternalCalls u) c) = cfgDatabasePlatform c
    /\ applyOpts c [ExternalCalls u; DatabaseCalls p]
       = {| cfgSpanType := Internal; cfgDatabasePlatform := p; cfgExternalURL := u |}
    /\ applyOpts c [DatabaseCalls p; ExternalCalls u]
       = {| cfgSpanType := Server; cfgDatabasePlatform := p; cfgExternalURL := u |}.
Proof. intros c p u. repeat split. Qed.

End ClassifierSpec.

(** ** Spans: what the methods do to the span *)

Module SpanSpec.
Import SpanTypes Signoz.

Lemma appendAttributes_app (kv : list attribute_KeyValue) (keyValue : list KeyValue) :
  appendAttributes kv keyValue = kv ++ List.map toAttribute keyValue.
Proof.
  revert kv. induction keyValue as [|item rest IH]; intros kv; simpl.
  - symmetry. apply app_nil_r.
  - rewrite IH, <- app_assoc. reflexivity.
Qed.

Lemma appendAttributes_map (keyValue : list KeyValue) :
  appendAttributes [] keyValue = List.map toAttribute keyValue.
Proof. apply appendAttributes_app. Qed.

Lemma Itoa_reads_back (i : Z) :
  option_map Z.of_int (NilZero.int_of_string (strconv_Itoa i)) = Some i.
Proof.
  unfold strconv_Itoa. rewrite NilZero.isi.
  - simpl. f_equal. apply DecimalZ.of_to.
  - destruct i; simpl; try discriminate.
    intros [= H]. revert H. apply Unsigned.to_uint_nonnil.
  - destruct i; simpl; try discriminate.
    intros [= H]. revert H. apply Unsigned.to_uint_nonnil.
Qed.

Lemma CreateSpan_unfold (name : string) (err : option error)
    (opts : list SpanTypeOption) :
  let c := applyOpts defaultConfig opts in
  CreateSpan name err opts
  = Done (tt, {| spanName := name;
                 spanKind := spanTypeMapper_index (cfgSpanType c);
                 spanCalls :=
                   match err with
                   | Some e => [Span_SetStatus codes_Error (Error e);
                                Span_RecordError e]
                   | None => []
                   end ++
                   [Span_SetAttributes
                      (List.map toAttribute
                         match cfgSpanType c with
                         | 1 => [ {| Key := "db.system";
                                     Value := cfgDatabasePlatform c |} ]
                         | 2 => [ {| Key := "http.url";
                                     Value := cfgExternalURL c |} ]
                         | _ => []
                         end)] |}).
Proof.
  intros c. unfold CreateSpan. fold c.
  rewrite (ClassifierSpec.getSpanTypeAttributes_cases c).
  rewrite <- appendAttributes_map.
  destruct err as [e|]; reflexivity.
Qed.

(** C7. [CreateSpan] always returns (it never exits).  Let [c] be the
    options folded from left to right over the default configuration
    (span type 0, empty platform, empty URL).  The span returned was
    started under the given name with the span kind of the span type of
    [c]: Internal for 1, Server for 2, Client for 3, Producer for 4,
    Consumer for 5, Unspecified otherwise.  With an error that is not
    nil, the calls on the span are, in this order: the status set to
    Error with the error's message, the error recorded, the attributes
    set.  With a nil error the only call sets the attributes, and no
    status is set.  The attributes are [db.system], the platform of [c],
    when the span type is Internal; [http.url], the URL of [c], when it
    is Server; none otherwise.  These are the kind and the attributes of
    the classifier.  So [DatabaseCalls p] alone starts an Internal span
    with [db.system = p], and [ExternalCalls u] alone a Server span with
    [http.url = u]. *)
Theorem CreateSpan_calls :
  forall (name : string) (err : option error) (opts : list SpanTypeOption),
  let c := fold_left (fun acc o => apply o acc) opts
             {| cfgSpanType := 0; cfgDatabasePlatform := ""; cfgExternalURL := "" |} in
  let errorCalls :=
    match err with
    | Some e => [Span_SetStatus codes_Error (Error e); Span_RecordError e]
    | None => []
    end in
  (exists (sp : Span) (attrs : list KeyValue),
    CreateSpan name err opts = Done (tt, sp)
    /\ spanName sp = name
    /\ spanKind sp
       = match cfgSpanType c with
         | 1 => SpanKindInternal
         | 2 => SpanKindServer
         | 3 => SpanKindClient
         | 4 => SpanKindProducer
         | 5 => SpanKindConsumer
         | _ => SpanKindUnspecified
         end
    /\ attrs
       = match cfgSpanType c with
         | 1 => [ {| Key := "db.system"; Value := cfgDatabasePlatform c |} ]
         | 2 => [ {| Key := "http.url"; Value := cfgExternalURL c |} ]
         | _ => []
         end
    /\ spanCalls sp
       = errorCalls ++ [Span_SetAttributes (List.map toAttribute attrs)]
    /\ spanStatuses sp
       = match err with
         | Some e => [(codes_Error, Error e)]
         | None => []
         end
    /\ spanKind sp = fst (classify opts)
    /\ snd (classify opts) = Some attrs)
  /\ (forall p : DatabasePlatform,
        CreateSpan name err [DatabaseCalls p]
        = Done (tt, {| spanName := name;
                       spanKind := SpanKindInternal;
                       spanCalls := errorCalls ++
                         [Span_SetAttributes [attribute_String "db.system" p]] |}))
  /\ (forall u : ExternalURL,
        CreateSpan name err [ExternalCalls u]
        = Done (tt, {| spanName := name;
                       spanKind := SpanKindServer;
                       spanCalls := errorCalls ++
                         [Span_SetAttributes [attribute_String "http.url" u]] |})).
Proof.
  intros name err opts c errorCalls.
  split; [|split; [intros p|intros u]; apply CreateSpan_unfold].
  assert (Hc : applyOpts defaultConfig opts = c)
    by apply ClassifierSpec.applyOpts_fold.
  eexists. eexists.
  split; [apply CreateSpan_unfold|]. rewrite Hc.
  cbn [spanName spanKind spanCalls].
  split; [reflexivity|].
  split; [apply ClassifierSpec.spanTypeMapper_index_cases|].
  split; [reflexivity|]. split; [reflexivity|].
  split; [subst errorCalls; destruct err; reflexivity|].
  unfold classify. rewrite Hc. cbn [fst snd].
  split; [reflexivity|apply ClassifierSpec.getSpanTypeAttributes_cases].
Qed.

Lemma TraceHttpRequest_run (token userId queryParam payload : string) (sp : Span) :
  TraceHttpRequest token userId queryParam payload sp
  = Done (tt, {| spanName := spanName sp;
                 spanKind := spanKind sp;
                 spanCalls := spanCalls sp ++
                   [ Span_AddEvent "Request"
                       [ attribute_String "Token" token;
                         attribute_String "Query Param" queryParam;
                         attribute_String "Payload" payload ];
                     Span_SetAttributes [ attribute_String "userId" userId ] ] |}).
Proof.
  cbv [TraceHttpRequest mbind M_bind AddEvent SetAttributes call
       spanCalls spanName spanKind]. simpl.
  rewrite <- app_assoc. reflexivity.
Qed.

(** C2, as the code has it. [TraceHttpRequest] never exits and makes two
    calls on the span of the context: it adds the event "Request" with
    the three attributes Token, Query Param and Payload (the token, the
    query parameters and the payload), then sets the span attribute
    userId to the caller's identity.  So the span gains one event, with
    those three attributes, and one attribute, userId. *)
Theorem TraceHttpRequest_calls :
  forall (token userId queryParam payload : string) (sp : Span),
  exists sp' : Span,
    TraceHttpRequest token userId queryParam payload sp = Done (tt, sp')
    /\ spanCalls sp'
       = spanCalls sp ++
         [ Span_AddEvent "Request"
             [ attribute_String "Token" token;
               attribute_String "Query Param" queryParam;
               attribute_String "Payload" payload ];
           Span_SetAttributes [ attribute_String "userId" userId ] ]
    /\ spanEvents sp'
       = spanEvents sp ++
         [ ("Request", [ attribute_String "Token" token;
                         attribute_String "Query Param" queryParam;
                         attribute_String "Payload" payload ]) ]
    /\ spanAttributes sp'
       = spanAttributes sp ++ [ attribute_String "userId" userId ].
Proof.
  intros token userId queryParam payload sp.
  eexists. split; [apply TraceHttpRequest_run|].
  split; [reflexivity|].
  unfold spanEvents, spanAttributes. cbn [spanCalls].
  rewrite !flat_map_app. split; reflexivity.
Qed.

(** C2, as stated, fails: on a fresh span, with token "tok", identity
    "user-1", query "q=1" and payload "{}", the "Request" event does not
    carry the four values as attributes: "user-1" is not among them. *)
Lemma TraceHttpRequest_event_lacks_userId :
  ~ (exists (sp' : Span) (attrs : list attribute_KeyValue),
        TraceHttpRequest "tok" "user-1" "q=1" "{}"
          (tracer_Start "GET /orders" SpanKindServer) = Done (tt, sp')
        /\ spanEvents sp' = [("Request", attrs)]
        /\ Forall (fun v => In v (List.map attribute_Value attrs))
                  ["tok"; "user-1"; "q=1"; "{}"]).
Proof.
  intros (sp' & attrs & Hrun & Hev & Hall).
  rewrite TraceHttpRequest_run in Hrun.
  injection Hrun as <-.
  cbv in Hev. injection Hev as <-.
  apply Forall_cons_iff in Hall as [_ Hall].
  apply Forall_cons_iff in Hall as [Hin _].
  simpl in Hin. intuition discriminate.
Qed.

(** C8. [TraceHttpResponse] serializes [data], then [errors].  When the
    first serialization that fails is that of [data] or that of [errors],
    the process exits with its error and nothing is recorded.  When both
    succeed, the only call on the span adds the event "Response" with the
    attributes Code (the decimal digits of the code), Message, Data and
    Errors (the two serialized texts).  The decimal rendering reads back
    as the code. *)
Theorem TraceHttpResponse_calls :
  forall (any : Type) (json_Marshal : any -> string + error)
         (code : Z) (message : string) (data errors : any) (sp : Span),
    TraceHttpResponse any json_Marshal code message data errors sp
    = match json_Marshal data, json_Marshal errors with
      | inr e, _ => Fatal (Error e)
      | inl _, inr e => Fatal (Error e)
      | inl dataString, inl errorsString =>
          Done (tt, {| spanName := spanName sp;
                       spanKind := spanKind sp;
                       spanCalls := spanCalls sp ++
                         [ Span_AddEvent "Response"
                             [ attribute_String "Code" (strconv_Itoa code);
                               attribute_String "Message" message;
                               attribute_String "Data" dataString;
                               attribute_String "Errors" errorsString ] ] |})
      end
    /\ option_map Z.of_int (NilZero.int_of_string (strconv_Itoa code)) = Some code
    /\ strconv_Itoa 200 = "200"
    /\ strconv_Itoa 0 = "0"
    /\ strconv_Itoa (-404) = "-404".
Proof.
  intros any json_Marshal code message data errors sp.
  split.
  - unfold TraceHttpResponse.
    cbv [mbind M_bind].
    destruct (json_Marshal data) as [d|e]; [|reflexivity].
    cbv [mret M_ret].
    destruct (json_Marshal errors) as [es|e]; reflexivity.
  - split; [apply Itoa_reads_back|repeat split].
Qed.

End SpanSpec.

(** ** [strings.ToLower] and the insecure flag *)

Module ToLowerFacts.
Import GoStrings.

Lemma byte_val_range (c : ascii) : 0 <= byte_val c < 256.
Proof.
  unfold byte_val. pose proof (N_ascii_bounded c). lia.
Qed.

Lemma byte_of_high (x : Z) :
  Z.testbit x 7 = true -> RuneSelf <= byte_val (byte_of x).
Proof.
  intros H. unfold byte_of. rewrite H.
  destruct (Z.testbit x 0), (Z.testbit x 1), (Z.testbit x 2), (Z.testbit x 3),
    (Z.testbit x 4), (Z.testbit x 5), (Z.testbit x 6); vm_compute; discriminate.
Qed.

Lemma byte_of_lor_high (k x : Z) :
  Z.testbit k 7 = true -> RuneSelf <= byte_val (byte_of (Z.lor k x)).
Proof.
  intros H. apply byte_of_high. rewrite Z.lor_spec, H. reflexivity.
Qed.

Lemma EncodeRune_high (r : Z) :
  RuneSelf <= r ->
  exists c t, EncodeRune r = String c t /\ RuneSelf <= byte_val c.
Proof.
  unfold RuneSelf. intros Hr. unfold EncodeRune, between.
  replace (r <=? 0x7F) with false by (symmetry; apply Z.leb_gt; lia).
  rewrite andb_false_r.
  repeat match goal with
         | |- context [if ?b then _ else _] => destruct b
         end;
    eexists; eexists; (split; [reflexivity|]);
    apply byte_of_lor_high; reflexivity.
Qed.

Lemma lor_lower_l (a b : Z) : 0 <= b -> a <= Z.lor a b.
Proof.
  intros Hb. pose proof (Z.sub_lor_l_same_l b a) as H.
  assert (0 <= Z.land b (Z.lnot a)) by (apply Z.land_nonneg; auto).
  lia.
Qed.

Lemma lor_lower_r (a b : Z) : 0 <= a -> b <= Z.lor a b.
Proof. intros. rewrite Z.lor_comm. apply lor_lower_l; assumption. Qed.

Lemma land_1F (x : Z) : Z.land x 0x1F = x mod 32.
Proof. apply (Z.land_ones x 5). lia. Qed.
Lemma land_0F (x : Z) : Z.land x 0x0F = x mod 16.
Proof. apply (Z.land_ones x 4). lia. Qed.
Lemma land_07 (x : Z) : Z.land x 0x07 = x mod 8.
Proof. apply (Z.land_ones x 3). lia. Qed.
Lemma land_3F (x : Z) : Z.land x 0x3F = x mod 64.
Proof. apply (Z.land_ones x 6). lia. Qed.

Lemma land_3F_nonneg (x : Z) : 0 <= Z.land x 0x3F.
Proof. rewrite land_3F. apply Z.mod_pos_bound. lia. Qed.

Lemma decode2_high (b0 b1 : Z) :
  0xC2 <= b0 <= 0xDF ->
  RuneSelf <= Z.lor (Z.shiftl (Z.land b0 0x1F) 6) (Z.land b1 0x3F).
Proof.
  intros H0. unfold RuneSelf.
  etransitivity; [|apply lor_lower_l, land_3F_nonneg].
  rewrite Z.shiftl_mul_pow2, land_1F by lia.
  change (2 ^ 6) with 64. Z.to_euclidean_division_equations. lia.
Qed.

Lemma decode3_high (b0 b1 b2 : Z) :
  0xE0 <= b0 <= 0xEF ->
  (if b0 =? 0xE0 then 0xA0 else 0x80) <= b1 <= 0xBF ->
  RuneSelf <= Z.lor (Z.lor (Z.shiftl (Z.land b0 0x0F) 12)
                           (Z.shiftl (Z.land b1 0x3F) 6))
                    (Z.land b2 0x3F).
Proof.
  intros H0 H1. unfold RuneSelf.
  etransitivity; [|apply lor_lower_l, land_3F_nonneg].
  rewrite !Z.shiftl_mul_pow2, land_0F, land_3F by lia.
  change (2 ^ 12) with 4096. change (2 ^ 6) with 64.
  destruct (Z.eqb_spec b0 0xE0) as [->|Hne].
  - etransitivity; [|apply lor_lower_r; reflexivity].
    Z.to_euclidean_division_equations. lia.
  - etransitivity; [|apply lor_lower_l].
    + Z.to_euclidean_division_equations. lia.
    + Z.to_euclidean_division_equations. lia.
Qed.

Lemma decode4_high (b0 b1 b2 b3 : Z) :
  0xF0 <= b0 <= 0xF4 ->
  (if b0 =? 0xF0 then 0x90 else 0x80) <= b1 <= 0xBF ->
  RuneSelf <= Z.lor (Z.lor (Z.lor (Z.shiftl (Z.land b0 0x07) 18)
                                  (Z.shiftl (Z.land b1 0x3F) 12))
                           (Z.shiftl (Z.land b2 0x3F) 6))
                    (Z.land b3 0x3F).
Proof.
  intros H0 H1. unfold RuneSelf.
  etransitivity; [|apply lor_lower_l, land_3F_nonneg].
  etransitivity; [|apply lor_lower_l].
  2:{ rewrite Z.shiftl_mul_pow2, land_3F by lia.
      Z.to_euclidean_division_equations. lia. }
  rewrite !Z.shiftl_mul_pow2, land_07, land_3F by lia.
  change (2 ^ 18) with 262144. change (2 ^ 12) with 4096.
  destruct (Z.eqb_spec b0 0xF0) as [->|Hne].
  - etransitivity; [|apply lor_lower_r; reflexivity].
    Z.to_euclidean_division_equations. lia.
  - etransitivity; [|apply lor_lower_l].
    + Z.to_euclidean_division_equations. lia.
    + Z.to_euclidean_division_equations. lia.
Qed.

Lemma between_spec (lo x hi : Z) : between lo x hi = true <-> lo <= x <= hi.
Proof. unfold between. rewrite andb_true_iff, !Z.leb_le. reflexivity. Qed.

Lemma Decode_ascii (c0 : ascii) (t0 : string) :
  byte_val c0 < RuneSelf ->
  DecodeRuneInString (String c0 t0) = (byte_val c0, 1%nat).
Proof.
  intros H. unfold DecodeRuneInString.
  destruct (Z.ltb_spec (byte_val c0) RuneSelf); [reflexivity|lia].
Qed.

Lemma Decode_width (c0 : ascii) (t0 : string) :
  (1 <= snd (DecodeRuneInString (String c0 t0)))%nat.
Proof.
  unfold DecodeRuneInString.
  repeat case_match; simpl; lia.
Qed.

Lemma Decode_nonascii (c0 : ascii) (t0 : string) :
  RuneSelf <= byte_val c0 ->
  RuneSelf <= fst (DecodeRuneInString (String c0 t0)).
Proof.
  intros H. unfold DecodeRuneInString.
  destruct (Z.ltb_spec (byte_val c0) RuneSelf) as [Hlt|_]; [lia|].
  destruct (between 0xC2 (byte_val c0) 0xDF) eqn:H2.
  { apply between_spec in H2.
    destruct t0 as [|c1 t1]; [vm_compute; discriminate|].
    destruct (between 128 (byte_val c1) 191); [|vm_compute; discriminate].
    simpl. apply decode2_high. exact H2. }
  destruct (between 0xE0 (byte_val c0) 0xEF) eqn:H3.
  { apply between_spec in H3.
    destruct t0 as [|c1 [|c2 t2]]; try (vm_compute; discriminate).
    match goal with |- context [if ?b then _ else _] => destruct b eqn:Hb end;
      [|vm_compute; discriminate].
    apply andb_true_iff in Hb as [Hb1 _]. apply between_spec in Hb1.
    simpl. apply decode3_high; [exact H3|].
    split; [apply Hb1|]. destruct Hb1 as [_ Hb1].
    destruct (byte_val c0 =? 237); lia. }
  destruct (between 0xF0 (byte_val c0) 0xF4) eqn:H4; [|vm_compute; discriminate].
  apply between_spec in H4.
  destruct t0 as [|c1 [|c2 [|c3 t3]]]; try (vm_compute; discriminate).
  match goal with |- context [if ?b then _ else _] => destruct b eqn:Hb end;
    [|vm_compute; discriminate].
  apply andb_true_iff in Hb as [Hb _]. apply andb_true_iff in Hb as [Hb1 _].
  apply between_spec in Hb1.
  simpl. apply decode4_high; [exact H4|].
  split; [apply Hb1|]. destruct Hb1 as [_ Hb1].
  destruct (byte_val c0 =? 244); lia.
Qed.

Lemma lor_upper (a b : Z) : 0 <= a -> Z.lor a b <= a + b.
Proof.
  intros Ha. pose proof (Z.add_lor_land a b) as H.
  assert (0 <= Z.land a b) by (apply Z.land_nonneg; auto).
  lia.
Qed.

Lemma land_3F_range (x : Z) : 0 <= Z.land x 0x3F <= 63.
Proof.
  rewrite land_3F. pose proof (Z.mod_pos_bound x 64). lia.
Qed.

(** A rune that is decoded from [w] bytes is encoded on [w] bytes. *)
Lemma decode2_RuneLen (b0 b1 : Z) :
  0xC2 <= b0 <= 0xDF ->
  RuneLen (Z.lor (Z.shiftl (Z.land b0 0x1F) 6) (Z.land b1 0x3F)) = 2.
Proof.
  intros H0.
  pose proof (decode2_high b0 b1 H0) as Hlo. unfold RuneSelf in Hlo.
  pose proof (land_3F_range b1) as H1.
  assert (Hup : Z.lor (Z.shiftl (Z.land b0 0x1F) 6) (Z.land b1 0x3F) <= 0x7FF).
  { etransitivity; [apply lor_upper|].
    - rewrite Z.shiftl_mul_pow2, land_1F by lia.
      Z.to_euclidean_division_equations. lia.
    - rewrite Z.shiftl_mul_pow2, land_1F by lia. change (2 ^ 6) with 64.
      Z.to_euclidean_division_equations. lia. }
  unfold RuneLen.
  destruct (Z.ltb_spec (Z.lor (Z.shiftl (Z.land b0 31) 6) (Z.land b1 63)) 0); [lia|].
  destruct (Z.leb_spec (Z.lor (Z.shiftl (Z.land b0 31) 6) (Z.land b1 63)) 127); [lia|].
  destruct (Z.leb_spec (Z.lor (Z.shiftl (Z.land b0 31) 6) (Z.land b1 63)) 2047); [reflexivity|lia].
Qed.

Lemma RuneLen_3 (c : Z) :
  0x800 <= c <= 0xFFFF -> c < surrogateMin \/ surrogateMax < c -> RuneLen c = 3.
Proof.
  unfold RuneLen, between, surrogateMin, surrogateMax. intros Hc Hs.
  destruct (Z.ltb_spec c 0); [lia|].
  destruct (Z.leb_spec c 127); [lia|].
  destruct (Z.leb_spec c 2047); [lia|].
  destruct (Z.leb_spec 55296 c), (Z.leb_spec c 57343); simpl; try lia;
    destruct (Z.leb_spec c 65535); try reflexivity; lia.
Qed.

Lemma RuneLen_4 (c : Z) : 0x10000 <= c <= MaxRune -> RuneLen c = 4.
Proof.
  unfold RuneLen, between, surrogateMin, surrogateMax, MaxRune. intros Hc.
  destruct (Z.ltb_spec c 0); [lia|].
  destruct (Z.leb_spec c 127); [lia|].
  destruct (Z.leb_spec c 2047); [lia|].
  destruct (Z.leb_spec 55296 c), (Z.leb_spec c 57343); simpl; try lia;
    destruct (Z.leb_spec c 65535); try lia;
    destruct (Z.leb_spec c 1114111); try reflexivity; lia.
Qed.

Lemma decode3_RuneLen (b0 b1 b2 : Z) :
  0xE0 <= b0 <= 0xEF ->
  (if b0 =? 0xE0 then 0xA0 else 0x80) <= b1 <= (if b0 =? 0xED then 0x9F else 0xBF) ->
  RuneLen (Z.lor (Z.lor (Z.shiftl (Z.land b0 0x0F) 12)
                        (Z.shiftl (Z.land b1 0x3F) 6))
                 (Z.land b2 0x3F)) = 3.
Proof.
  intros H0 H1.
  pose proof (land_3F_range b2) as H2.
  set (A := Z.shiftl (Z.land b0 0x0F) 12).
  set (B := Z.shiftl (Z.land b1 0x3F) 6).
  assert (HA : A = (b0 - 0xE0) * 4096).
  { unfold A. rewrite Z.shiftl_mul_pow2, land_0F by lia. change (2 ^ 12) with 4096.
    Z.to_euclidean_division_equations. lia. }
  assert (HB : B = (b1 mod 64) * 64).
  { unfold B. rewrite Z.shiftl_mul_pow2, land_3F by lia. reflexivity. }
  assert (HB' : 0 <= B <= 4032
                /\ (b0 = 0xE0 -> 2048 <= B) /\ (b0 = 0xED -> B <= 1984)).
  { rewrite HB.
    destruct (Z.eqb_spec b0 0xE0), (Z.eqb_spec b0 0xED);
      Z.to_euclidean_division_equations; lia. }
  destruct HB' as (HB0 & HBlo & HBhi).
  assert (Hup : Z.lor (Z.lor A B) (Z.land b2 0x3F) <= A + B + 63).
  { etransitivity; [apply lor_upper|].
    - apply Z.lor_nonneg. lia.
    - pose proof (lor_upper A B). lia. }
  assert (Hlo1 : A <= Z.lor (Z.lor A B) (Z.land b2 0x3F)).
  { etransitivity; [|apply lor_lower_l; lia]. apply lor_lower_l. lia. }
  assert (Hlo2 : B <= Z.lor (Z.lor A B) (Z.land b2 0x3F)).
  { etransitivity; [|apply lor_lower_l; lia]. apply lor_lower_r. lia. }
  apply RuneLen_3; unfold surrogateMin, surrogateMax; lia.
Qed.

Lemma decode4_RuneLen (b0 b1 b2 b3 : Z) :
  0xF0 <= b0 <= 0xF4 ->
  (if b0 =? 0xF0 then 0x90 else 0x80) <= b1 <= (if b0 =? 0xF4 then 0x8F else 0xBF) ->
  RuneLen (Z.lor (Z.lor (Z.lor (Z.shiftl (Z.land b0 0x07) 18)
                               (Z.shiftl (Z.land b1 0x3F) 12))
                        (Z.shiftl (Z.land b2 0x3F) 6))
                 (Z.land b3 0x3F)) = 4.
Proof.
  intros H0 H1.
  pose proof (land_3F_range b2) as H2. pose proof (land_3F_range b3) as H3.
  set (A := Z.shiftl (Z.land b0 0x07) 18).
  set (B := Z.shiftl (Z.land b1 0x3F) 12).
  set (C := Z.shiftl (Z.land b2 0x3F) 6).
  assert (HA : A = (b0 - 0xF0) * 262144).
  { unfold A. rewrite Z.shiftl_mul_pow2, land_07 by lia.
    change (2 ^ 18) with 262144. Z.to_euclidean_division_equations. lia. }
  assert (HB : B = (b1 mod 64) * 4096).
  { unfold B. rewrite Z.shiftl_mul_pow2, land_3F by lia. reflexivity. }
  assert (HC : 0 <= C <= 4032).
  { unfold C. rewrite Z.shiftl_mul_pow2 by lia. change (2 ^ 6) with 64. lia. }
  assert (HB' : 0 <= B <= 258048
                /\ (b0 = 0xF0 -> 65536 <= B) /\ (b0 = 0xF4 -> B <= 61440)).
  { rewrite HB.
    destruct (Z.eqb_spec b0 0xF0), (Z.eqb_spec b0 0xF4);
      Z.to_euclidean_division_equations; lia. }
  destruct HB' as (HB0 & HBlo & HBhi).
  assert (HAB : 0 <= Z.lor A B <= A + B).
  { split; [apply Z.lor_nonneg; lia|apply lor_upper; lia]. }
  assert (HABC : 0 <= Z.lor (Z.lor A B) C <= A + B + C).
  { split; [apply Z.lor_nonneg; lia|].
    etransitivity; [apply lor_upper|]; lia. }
  assert (Hup : Z.lor (Z.lor (Z.lor A B) C) (Z.land b3 0x3F) <= A + B + C + 63).
  { etransitivity; [apply lor_upper|]; lia. }
  assert (Hlo0 : Z.lor A B <= Z.lor (Z.lor (Z.lor A B) C) (Z.land b3 0x3F)).
  { etransitivity; [|apply lor_lower_l; lia]. apply lor_lower_l. lia. }
  assert (Hlo1 : A <= Z.lor A B) by (apply lor_lower_l; lia).
  assert (Hlo2 : B <= Z.lor A B) by (apply lor_lower_r; lia).
  apply RuneLen_4; unfold MaxRune; lia.
Qed.

Lemma Decode_RuneLen (c0 : ascii) (t0 : string) :
  fst (DecodeRuneInString (String c0 t0)) <> RuneError ->
  Z.to_nat (RuneLen (fst (DecodeRuneInString (String c0 t0))))
  = snd (DecodeRuneInString (String c0 t0)).
Proof.
  unfold DecodeRuneInString.
  pose proof (byte_val_range c0) as Hr.
  destruct (Z.ltb_spec (byte_val c0) RuneSelf) as [Hlt|_].
  { intros _. simpl. unfold RuneLen, RuneSelf in *.
    destruct (Z.ltb_spec (byte_val c0) 0); [lia|].
    destruct (Z.leb_spec (byte_val c0) 0x7F); [reflexivity|lia]. }
  destruct (between 0xC2 (byte_val c0) 0xDF) eqn:H2.
  { apply between_spec in H2.
    destruct t0 as [|c1 t1]; [intros H; elim H; reflexivity|].
    destruct (between 128 (byte_val c1) 191); [|intros H; elim H; reflexivity].
    intros _. simpl. rewrite decode2_RuneLen by exact H2. reflexivity. }
  destruct (between 0xE0 (byte_val c0) 0xEF) eqn:H3.
  { apply between_spec in H3.
    destruct t0 as [|c1 [|c2 t2]]; try (intros H; elim H; reflexivity).
    match goal with |- context [if ?b then _ else _] => destruct b eqn:Hb end;
      [|intros H; elim H; reflexivity].
    apply andb_true_iff in Hb as [Hb1 _]. apply between_spec in Hb1.
    intros _. simpl. rewrite decode3_RuneLen; [reflexivity|exact H3|exact Hb1]. }
  destruct (between 0xF0 (byte_val c0) 0xF4) eqn:H4;
    [|intros H; elim H; reflexivity].
  apply between_spec in H4.
  destruct t0 as [|c1 [|c2 [|c3 t3]]]; try (intros H; elim H; reflexivity).
  match goal with |- context [if ?b then _ else _] => destruct b eqn:Hb end;
    [|intros H; elim H; reflexivity].
  apply andb_true_iff in Hb as [Hb _]. apply andb_true_iff in Hb as [Hb1 _].
  apply between_spec in Hb1.
  intros _. simpl. rewrite decode4_RuneLen; [reflexivity|exact H4|exact Hb1].
Qed.

(** Strings: slices and bytes. *)

Lemma append_nil (t : string) : "" +:+ t = t.
Proof. reflexivity. Qed.

Lemma append_cons (c : ascii) (s t : string) :
  String c s +:+ t = String c (s +:+ t).
Proof. reflexivity. Qed.

Lemma allBytes_app (P : ascii -> bool) (s t : string) :
  allBytes P (s +:+ t) = allBytes P s && allBytes P t.
Proof.
  induction s as [|c s IH]; [reflexivity|].
  rewrite append_cons. simpl. rewrite IH. apply andb_assoc.
Qed.

Lemma slice_split (s : string) (n : nat) : sliceTo s n +:+ sliceFrom s n = s.
Proof.
  revert s. induction n as [|n IH]; intros [|c s]; try reflexivity.
  simpl. rewrite append_cons. f_equal. apply IH.
Qed.

Lemma sliceFrom_one (c : ascii) (s : string) : sliceFrom (String c s) 1 = s.
Proof. destruct s; reflexivity. Qed.

Lemma sliceFrom_length (s : string) (n : nat) :
  String.length (sliceFrom s n) = (String.length s - n)%nat.
Proof.
  revert s. induction n as [|n IH]; intros [|c s]; simpl; try reflexivity.
  apply IH.
Qed.

Lemma sliceTo_add (s : string) (w i : nat) :
  sliceTo s (w + i) = sliceTo s w +:+ sliceTo (sliceFrom s w) i.
Proof.
  revert s. induction w as [|w IH]; intros s.
  - destruct i, s; reflexivity.
  - destruct s as [|c s].
    + destruct i; reflexivity.
    + simpl. rewrite append_cons. f_equal. apply IH.
Qed.

Lemma append_assoc (s t v : string) : (s +:+ t) +:+ v = s +:+ (t +:+ v).
Proof.
  induction s as [|c s IH]; [reflexivity|].
  rewrite !append_cons. f_equal. apply IH.
Qed.

Lemma plain_is_ascii (s : string) :
  allBytes isPlainByte s = true -> allBytes isASCIIByte s = true.
Proof.
  induction s as [|c s IH]; simpl; [reflexivity|].
  unfold isPlainByte at 1. rewrite !andb_true_iff.
  intros [[[Hc _] _] Hs]. split; [exact Hc|apply IH, Hs].
Qed.

(** The two loops of [strings.Map] consume at least one byte at every
    turn: the length of the string is fuel enough, and more fuel changes
    nothing. *)
Section MapFuel.

Variable mapping : Z -> Z.

Lemma Map_width (c0 : ascii) (t0 : string) :
  let c := fst (DecodeRuneInString (String c0 t0)) in
  let w := snd (DecodeRuneInString (String c0 t0)) in
  (1 <= (if (c =? RuneError)%Z then w else Z.to_nat (RuneLen c)))%nat.
Proof.
  intros c w. pose proof (Decode_width c0 t0) as Hw.
  destruct (Z.eqb_spec c RuneError) as [_|Hne]; [exact Hw|].
  unfold c. rewrite (Decode_RuneLen c0 t0 Hne). exact Hw.
Qed.

Lemma Map_rest_fuel (fuel1 : nat) :
  forall (fuel2 : nat) (s : string),
    (String.length s <= fuel1)%nat -> (String.length s <= fuel2)%nat ->
    Map_rest mapping fuel1 s = Map_rest mapping fuel2 s.
Proof.
  induction fuel1 as [|fuel1 IH]; intros [|fuel2] [|c0 t0] H1 H2;
    try reflexivity; simpl in H1, H2; try lia.
  cbn [Map_rest].
  pose proof (Decode_width c0 t0) as Hw.
  destruct (DecodeRuneInString (String c0 t0)) as [c w]. simpl in Hw.
  f_equal.
  apply IH; rewrite sliceFrom_length; simpl; lia.
Qed.

Lemma Map_first_fuel (fuel1 : nat) :
  forall (fuel2 : nat) (s : string),
    (String.length s <= fuel1)%nat -> (String.length s <= fuel2)%nat ->
    Map_first mapping fuel1 s = Map_first mapping fuel2 s.
Proof.
  induction fuel1 as [|fuel1 IH]; intros [|fuel2] [|c0 t0] H1 H2;
    try reflexivity; simpl in H1, H2; try lia.
  cbn [Map_first].
  pose proof (Decode_width c0 t0) as Hw.
  pose proof (Map_width c0 t0) as Hwidth.
  destruct (DecodeRuneInString (String c0 t0)) as [c w]. simpl in Hw, Hwidth.
  rewrite (IH fuel2 (sliceFrom (String c0 t0) w))
    by (rewrite sliceFrom_length; simpl; lia).
  rewrite (Map_rest_fuel fuel1 fuel2)
    by (rewrite sliceFrom_length; simpl; lia).
  reflexivity.
Qed.

Lemma Map_fuel (fuel : nat) (s : string) :
  (String.length s <= fuel)%nat ->
  Map mapping s
  = match Map_first mapping fuel s with
    | None => s
    | Some (i, out) => sliceTo s i +:+ out
    end.
Proof.
  intros H. unfold Map.
  rewrite (Map_first_fuel (String.length s) fuel s (le_n _) H). reflexivity.
Qed.

End MapFuel.

(** [strings.Map] of a case table that sends no rune outside ASCII to an
    ASCII rune other than i and k. *)
Section MapFacts.

Variable u : Z -> Z.
Hypothesis u_high :
  forall r, RuneSelf <= r -> RuneSelf <= u r \/ u r = 0x69 \/ u r = 0x6B.

Lemma EncodeRune_not_plain (r : Z) (rest : string) :
  RuneSelf <= r -> allBytes isPlainByte (EncodeRune r +:+ rest) = false.
Proof.
  intros Hr. destruct (EncodeRune_high r Hr) as (c & t & -> & Hc).
  rewrite append_cons. simpl. unfold isPlainByte, isASCIIByte.
  destruct (Z.ltb_spec (byte_val c) RuneSelf); [lia|reflexivity].
Qed.

Lemma written_rest_not_plain (c : Z) (rest : string) :
  RuneSelf <= c ->
  allBytes isPlainByte
    ((if 0 <=? u c
      then (if u c <? RuneSelf then String (byte_of (u c)) "" else EncodeRune (u c))
      else "") +:+ rest) = false.
Proof.
  intros Hc. destruct (u_high c Hc) as [H|[H|H]].
  - destruct (Z.leb_spec 0 (u c)); [|unfold RuneSelf in *; lia].
    destruct (Z.ltb_spec (u c) RuneSelf); [lia|].
    apply EncodeRune_not_plain, H.
  - rewrite H. reflexivity.
  - rewrite H. reflexivity.
Qed.

Lemma written_first_not_plain (c : Z) (rest : string) :
  RuneSelf <= c ->
  allBytes isPlainByte
    ((if 0 <=? u c then EncodeRune (u c) else "") +:+ rest) = false.
Proof.
  intros Hc. destruct (u_high c Hc) as [H|[H|H]].
  - destruct (Z.leb_spec 0 (u c)); [|unfold RuneSelf in *; lia].
    apply EncodeRune_not_plain, H.
  - rewrite H. reflexivity.
  - rewrite H. reflexivity.
Qed.

Lemma Map_rest_plain (fuel : nat) :
  forall s : string,
    (String.length s <= fuel)%nat ->
    allBytes isPlainByte (Map_rest u fuel s) = true ->
    allBytes isASCIIByte s = true.
Proof.
  induction fuel as [|fuel IH]; intros [|c0 t0] Hlen Hp; try reflexivity.
  - simpl in Hlen. lia.
  - cbn [Map_rest] in Hp.
    destruct (Z.ltb_spec (byte_val c0) RuneSelf) as [Hlt|Hge].
    + rewrite (Decode_ascii c0 t0 Hlt), sliceFrom_one in Hp.
      rewrite allBytes_app in Hp. apply andb_true_iff in Hp as [_ Hp].
      simpl. unfold isASCIIByte at 1.
      apply andb_true_iff. split; [apply Z.ltb_lt, Hlt|].
      apply IH; [simpl in Hlen; lia|exact Hp].
    + pose proof (Decode_nonascii c0 t0 Hge) as Hc.
      destruct (DecodeRuneInString (String c0 t0)) as [c w]. simpl in Hc.
      rewrite (written_rest_not_plain c _ Hc) in Hp. discriminate.
Qed.

Lemma Map_first_plain (fuel : nat) :
  forall (s : string) (i : nat) (out : string),
    (String.length s <= fuel)%nat ->
    Map_first u fuel s = Some (i, out) ->
    allBytes isPlainByte (sliceTo s i +:+ out) = true ->
    allBytes isASCIIByte s = true.
Proof.
  induction fuel as [|fuel IH]; intros [|c0 t0] i out Hlen Hm Hp;
    try discriminate.
  cbn [Map_first] in Hm.
  pose proof (Decode_width c0 t0) as Hw.
  assert (Hnext : forall w,
    (1 <= w)%nat ->
    match Map_first u fuel (sliceFrom (String c0 t0) w) with
    | Some (i, out) => Some ((w + i)%nat, out)
    | None => None
    end = Some (i, out) ->
    allBytes isASCIIByte (String c0 t0) = true).
  { intros w Hw1 Hn.
    destruct (Map_first u fuel (sliceFrom (String c0 t0) w))
      as [[i' out']|] eqn:Hrec; [|discriminate].
    injection Hn as <- <-.
    rewrite sliceTo_add, append_assoc, allBytes_app in Hp.
    apply andb_true_iff in Hp as [Hp1 Hp2].
    apply IH in Hrec; [| rewrite sliceFrom_length; simpl in *; lia | exact Hp2].
    rewrite <- (slice_split (String c0 t0) w), allBytes_app.
    apply andb_true_iff. split; [apply plain_is_ascii, Hp1|exact Hrec]. }
  destruct (Z.ltb_spec (byte_val c0) RuneSelf) as [Hlt|Hge].
  - rewrite (Decode_ascii c0 t0 Hlt) in Hm, Hw.
    pose proof (byte_val_range c0) as Hr. unfold RuneSelf in Hlt.
    assert (HnE : (byte_val c0 =? RuneError) = false)
      by (apply Z.eqb_neq; unfold RuneError; lia).
    rewrite HnE in Hm. cbn [negb andb] in Hm. rewrite andb_true_r in Hm.
    destruct (u (byte_val c0) =? byte_val c0); [apply (Hnext 1%nat); [lia|exact Hm]|].
    assert (HL : Z.to_nat (RuneLen (byte_val c0)) = 1%nat).
    { unfold RuneLen.
      destruct (Z.ltb_spec (byte_val c0) 0); [lia|].
      destruct (Z.leb_spec (byte_val c0) 0x7F); [reflexivity|lia]. }
    rewrite HL, sliceFrom_one in Hm.
    injection Hm as <- <-. cbn [sliceTo] in Hp.
    rewrite append_nil in Hp.
    rewrite allBytes_app in Hp. apply andb_true_iff in Hp as [_ Hp].
    apply Map_rest_plain in Hp; [|simpl in Hlen; lia].
    simpl. unfold isASCIIByte at 1.
    apply andb_true_iff. split; [apply Z.ltb_lt, Hlt|exact Hp].
  - pose proof (Decode_nonascii c0 t0 Hge) as Hc.
    destruct (DecodeRuneInString (String c0 t0)) as [c w]. simpl in Hc, Hw.
    destruct ((u c =? c) && negb (c =? RuneError)); [apply (Hnext w Hw Hm)|].
    destruct ((c =? RuneError) && negb (w =? 1)%nat && (u c =? c));
      [apply (Hnext w Hw Hm)|].
    injection Hm as <- <-. cbn [sliceTo] in Hp.
    rewrite append_nil in Hp.
    rewrite (written_first_not_plain c _ Hc) in Hp. discriminate.
Qed.

Lemma Map_plain (s : string) :
  allBytes isPlainByte (Map u s) = true -> allBytes isASCIIByte s = true.
Proof.
  unfold Map.
  destruct (Map_first u (String.length s) s) as [[i out]|] eqn:Hm.
  - apply (Map_first_plain _ _ _ _ (le_n _) Hm).
  - apply plain_is_ascii.
Qed.

End MapFacts.

End ToLowerFacts.

Module FlagSpec.
Import GoStrings Signoz ToLowerFacts.

Lemma ToLower_scan_fst (s : string) (h : bool) :
  fst (ToLower_scan s h) = allBytes isASCIIByte s.
Proof.
  revert h. induction s as [|c s IH]; intros h; simpl; [reflexivity|].
  unfold isASCIIByte at 1.
  destruct (Z.leb_spec RuneSelf (byte_val c)) as [Hge|Hlt].
  - destruct (Z.ltb_spec (byte_val c) RuneSelf); [lia|reflexivity].
  - destruct (Z.ltb_spec (byte_val c) RuneSelf); [|lia]. apply IH.
Qed.

Lemma ToLower_scan_no_upper (s : string) (h : bool) :
  ToLower_scan s h = (true, false) -> h = false /\ ToLower_ascii s = s.
Proof.
  revert h. induction s as [|c s IH]; intros h; simpl.
  - intros [= ->]. split; reflexivity.
  - destruct (RuneSelf <=? byte_val c); [discriminate|].
    intros H. apply IH in H as [Hh Hs].
    apply orb_false_iff in Hh as [-> Hc].
    rewrite Hc, Hs. split; reflexivity.
Qed.

Section Flag.

Variable u : Z -> Z.
Hypothesis u_high :
  forall r, RuneSelf <= r -> RuneSelf <= u r \/ u r = 0x69 \/ u r = 0x6B.

Lemma ToLower_of_ascii (s : string) :
  allBytes isASCIIByte s = true -> ToLower u s = ToLower_ascii s.
Proof.
  intros Ha. unfold ToLower.
  pose proof (ToLower_scan_fst s false) as Hf.
  destruct (ToLower_scan s false) as [isA hasUpper] eqn:Hs. simpl in Hf.
  rewrite Hf, Ha.
  destruct hasUpper; [reflexivity|]. simpl.
  rewrite Hf, Ha in Hs. apply ToLower_scan_no_upper in Hs as [_ Hs].
  symmetry. exact Hs.
Qed.

Lemma ToLower_of_other (s : string) :
  allBytes isASCIIByte s = false -> ToLower u s = Map u s.
Proof.
  intros Ha. unfold ToLower.
  pose proof (ToLower_scan_fst s false) as Hf.
  destruct (ToLower_scan s false) as [isA hasUpper]. simpl in Hf.
  rewrite Hf, Ha. reflexivity.
Qed.

(** A string that [ToLower] sends to a plain string is ASCII only. *)
Lemma ToLower_plain (s : string) :
  allBytes isPlainByte (ToLower u s) = true -> allBytes isASCIIByte s = true.
Proof.
  destruct (allBytes isASCIIByte s) eqn:Ha; [reflexivity|].
  rewrite (ToLower_of_other s Ha). intros Hp.
  rewrite <- Ha. apply (Map_plain u u_high s Hp).
Qed.

End Flag.

Lemma foldByte_lowers (c : ascii) :
  foldByte c
  = if isUpperByte c
    then byte_of (byte_val c + (byte_val "a" - byte_val "A"))
    else c.
Proof. reflexivity. Qed.

Lemma foldByte_ascii (c : ascii) : isASCIIByte (foldByte c) = isASCIIByte c.
Proof. destruct c as [[] [] [] [] [] [] [] []]; reflexivity. Qed.

Lemma equalFold_ToLower_ascii (s t : string) :
  equalFold s t = true <-> ToLower_ascii s = ToLower_ascii t.
Proof.
  revert t. induction s as [|a s IH]; intros [|b t]; simpl;
    try (split; [discriminate|discriminate]); [tauto|].
  rewrite <- !foldByte_lowers, andb_true_iff, IH, Ascii.eqb_eq.
  split; [intros [-> ->]; reflexivity|intros [= -> ->]; split; reflexivity].
Qed.

Lemma equalFold_ascii (s t : string) :
  equalFold s t = true -> allBytes isASCIIByte s = allBytes isASCIIByte t.
Proof.
  revert t. induction s as [|a s IH]; intros [|b t]; simpl;
    try discriminate; [reflexivity|].
  rewrite andb_true_iff, Ascii.eqb_eq. intros [Hab Hst].
  rewrite <- (foldByte_ascii a), <- (foldByte_ascii b), Hab, (IH t Hst).
  reflexivity.
Qed.

Lemma equalFold_zero (s : string) : equalFold s "0" = String.eqb s "0".
Proof.
  destruct s as [|c [|c' s']]; [reflexivity| |].
  - destruct c as [[] [] [] [] [] [] [] []]; reflexivity.
  - simpl. rewrite andb_false_r.
    destruct (Ascii.eqb c "0"); reflexivity.
Qed.

(** Comparing [ToLower s] with a lower-case string without i and k is
    comparing [s] with it without regard to case. *)
Lemma ToLower_eqb_equalFold (u : Z -> Z) (s t : string) :
  (forall r, RuneSelf <= r -> RuneSelf <= u r \/ u r = 0x69 \/ u r = 0x6B) ->
  allBytes isPlainByte t = true ->
  ToLower_ascii t = t ->
  String.eqb (ToLower u s) t = equalFold s t.
Proof.
  intros u_high Hplain Hlow.
  destruct (equalFold s t) eqn:He.
  - apply String.eqb_eq.
    rewrite ToLower_of_ascii.
    + rewrite <- Hlow. apply equalFold_ToLower_ascii, He.
    + rewrite (equalFold_ascii s t He). apply plain_is_ascii, Hplain.
  - apply String.eqb_neq. intros Heq.
    assert (Ha : allBytes isASCIIByte s = true)
      by (apply (ToLower_plain u u_high); rewrite Heq; exact Hplain).
    rewrite (ToLower_of_ascii u s Ha), <- Hlow in Heq.
    apply equalFold_ToLower_ascii in Heq. congruence.
Qed.

(** [ToLower] outside ASCII: U+0130 lowers to the ASCII letter i, a
    capital E with acute accent to the small one, a byte that is not
    UTF-8 to U+FFFD; none of these flags selects TLS. *)
Example ToLower_dotted_I :
  ToLower toLower_fragment (bytes [0xC4; 0xB0]) = "i".
Proof. reflexivity. Qed.

Example ToLower_E_acute :
  ToLower toLower_fragment (bytes [0x46; 0xC3; 0x89]) = bytes [0x66; 0xC3; 0xA9].
Proof. reflexivity. Qed.

Example ToLower_invalid_byte :
  ToLower toLower_fragment (bytes [0x46; 0xFF]) = bytes [0x66; 0xEF; 0xBF; 0xBD].
Proof. reflexivity. Qed.

Example flag_invalid_byte_plaintext :
  InitTracer_secureOption toLower_fragment
    {| serviceName := "orders"; collectorURL := "localhost:4317";
       insecure := bytes [0x46; 0xFF] |}
  = WithInsecure.
Proof. reflexivity. Qed.

Lemma toLower_fragment_high (r : Z) :
  RuneSelf <= r ->
  RuneSelf <= toLower_fragment r
  \/ toLower_fragment r = 0x69 \/ toLower_fragment r = 0x6B.
Proof.
  unfold RuneSelf, toLower_fragment, between. intros Hr.
  destruct (Z.leb_spec 0x41 r), (Z.leb_spec r 0x5A); simpl; try lia.
  destruct (Z.leb_spec 0xC0 r), (Z.leb_spec r 0xDE), (Z.eqb_spec r 0xD7);
    simpl; try lia;
    destruct (Z.eqb_spec r 0x130), (Z.eqb_spec r 0x212A); lia.
Qed.

(** C1. Let [unicode.ToLower] send no rune outside ASCII to an ASCII rune
    other than i and k (so it is in Unicode: only U+0130 and the Kelvin
    sign U+212A have an ASCII lower case).  Then, for every receiver,
    [InitTracer] chooses the TLS credentials exactly when the insecure
    flag lowercases to "false" or to "f" or is "0"; that is, exactly when
    the flag is "false", "0" or "f" without regard to case; and it
    chooses the plaintext transport for every other flag. In the table:
    "false", "FALSE", "0", "f", "F" give TLS and "true", "", "yes", "1"
    give plaintext. *)
Theorem InitTracer_insecure_flag :
  forall u : Z -> Z,
    (forall r, RuneSelf <= r -> RuneSelf <= u r \/ u r = 0x69 \/ u r = 0x6B) ->
    forall s : signoz,
      (InitTracer_secureOption u s = WithTLSCredentials
       <-> (ToLower u (insecure s) = "false"
            \/ insecure s = "0"
            \/ ToLower u (insecure s) = "f"))
      /\ InitTracer_secureOption u s
         = (if spec_selectsTLS (insecure s) then WithTLSCredentials else WithInsecure)
      /\ (InitTracer_secureOption u s = WithTLSCredentials
          \/ InitTracer_secureOption u s = WithInsecure)
      /\ List.map
           (fun flag => InitTracer_secureOption u
                          {| serviceName := serviceName s;
                             collectorURL := collectorURL s;
                             insecure := flag |})
           ["false"; "FALSE"; "0"; "f"; "F"; "true"; ""; "yes"; "1"]
         = [WithTLSCredentials; WithTLSCredentials; WithTLSCredentials;
            WithTLSCredentials; WithTLSCredentials;
            WithInsecure; WithInsecure; WithInsecure; WithInsecure].
Proof.
  intros u u_high s.
  split; [|split; [|split]].
  - unfold InitTracer_secureOption.
    rewrite <- !String.eqb_eq.
    destruct (String.eqb (ToLower u (insecure s)) "false"),
      (String.eqb (insecure s) "0"),
      (String.eqb (ToLower u (insecure s)) "f"); simpl;
      intuition discriminate.
  - unfold InitTracer_secureOption, spec_selectsTLS. simpl.
    rewrite !(ToLower_eqb_equalFold u _ _ u_high) by reflexivity.
    rewrite equalFold_zero, orb_false_r, orb_assoc. reflexivity.
  - unfold InitTracer_secureOption.
    match goal with |- context [if ?b then _ else _] => destruct b end;
      [left|right]; reflexivity.
  - reflexivity.
Qed.

(** The theorem at a concrete case table and a concrete receiver: the
    flag "FALSE" selects TLS. *)
Lemma InitTracer_insecure_flag_witness :
  InitTracer_secureOption toLower_fragment
    {| serviceName := "orders"; collectorURL := "localhost:4317";
       insecure := "FALSE" |}
  = WithTLSCredentials.
Proof.
  apply (proj1 (InitTracer_insecure_flag toLower_fragment toLower_fragment_high
                  {| serviceName := "orders"; collectorURL := "localhost:4317";
                     insecure := "FALSE" |})).
  left. reflexivity.
Defined.

End FlagSpec.

(** * Further properties *)

(** ** The classifier on every configuration and every public option *)

Module ClassifierMore.
Import SpanTypes PublicOptions.

(** X1. [getSpanTypeAttributes] returns nil exactly on the nil pointer.
    On a configuration it returns at most one attribute, whatever the
    span type: none exactly when the span type is neither Internal nor
    Server (so none for Client, Producer, Consumer, Unspecified or any
    other integer), and otherwise one whose key is [db.system] or
    [http.url]. *)
Theorem getSpanTypeAttributes_shape :
  getSpanTypeAttributes None = None
  /\ forall c : spanTypeConfig,
       exists attrs : list KeyValue,
         getSpanTypeAttributes (Some c) = Some attrs
         /\ (List.length attrs <= 1)%nat
         /\ (attrs = [] <-> cfgSpanType c <> Internal /\ cfgSpanType c <> Server)
         /\ Forall (fun a => Key a = "db.system" \/ Key a = "http.url") attrs.
Proof.
  split; [reflexivity|]. intros c. unfold getSpanTypeAttributes.
  destruct (decide (cfgSpanType c = Internal)) as [Hi|Hi].
  - eexists. split; [reflexivity|]. simpl.
    split; [lia|]. split.
    + split; [discriminate|]. intros [H _]. contradiction.
    + repeat constructor.
  - destruct (decide (cfgSpanType c = Server)) as [Hs|Hs].
    + eexists. split; [reflexivity|]. simpl.
      split; [lia|]. split.
      * split; [discriminate|]. intros [_ H]. contradiction.
      * constructor; [right; reflexivity|constructor].
    + exists []. split; [reflexivity|]. simpl.
      split; [lia|]. split; [|constructor].
      split; [intros _; split; assumption|reflexivity].
Qed.

Lemma spanTypeMapper_lookup_None (t : SpanType) :
  spanTypeMapper !! t = None <-> t < 0 \/ 5 < t.
Proof.
  unfold spanTypeMapper, Unspecified, Internal, Server, Client, Producer, Consumer.
  split.
  - intros H.
    destruct (decide (t = 0)) as [->|]; [discriminate H|].
    destruct (decide (t = 1)) as [->|]; [discriminate H|].
    destruct (decide (t = 2)) as [->|]; [discriminate H|].
    destruct (decide (t = 3)) as [->|]; [discriminate H|].
    destruct (decide (t = 4)) as [->|]; [discriminate H|].
    destruct (decide (t = 5)) as [->|]; [discriminate H|].
    lia.
  - intros H.
    rewrite !lookup_insert_ne by lia.
    apply lookup_singleton_ne. lia.
Qed.

(** X2. The table [spanTypeMapper] has an entry exactly for the integers
    0 to 5.  A span type outside that range indexes to the zero value,
    the span kind Unspecified, without failing: the index gives
    Unspecified exactly for the span type 0 and for the integers outside
    0 to 5. *)
Theorem spanTypeMapper_missing_key :
  forall t : SpanType,
    (spanTypeMapper !! t = None <-> t < 0 \/ 5 < t)
    /\ (is_Some (spanTypeMapper !! t) <-> 0 <= t <= 5)
    /\ (spanTypeMapper_index t = SpanKindUnspecified <-> t <= 0 \/ 5 < t).
Proof.
  intros t. pose proof (spanTypeMapper_lookup_None t) as H.
  split; [exact H|]. split.
  - rewrite <- not_eq_None_Some, H. lia.
  - unfold spanTypeMapper_index. split.
    + intros Hk.
      destruct (decide (t = 1)) as [->|]; [discriminate Hk|].
      destruct (decide (t = 2)) as [->|]; [discriminate Hk|].
      destruct (decide (t = 3)) as [->|]; [discriminate Hk|].
      destruct (decide (t = 4)) as [->|]; [discriminate Hk|].
      destruct (decide (t = 5)) as [->|]; [discriminate Hk|].
      lia.
    + intros Ht.
      destruct (decide (t = 0)) as [->|]; [reflexivity|].
      assert (Hn : spanTypeMapper !! t = None) by (apply H; lia).
      rewrite Hn. reflexivity.
Qed.

Lemma applyOpts_public_from (l : list PublicOption) :
  forall c : spanTypeConfig,
    applyOpts c (List.map toOption l)
    = {| cfgSpanType := lastType (cfgSpanType c) l;
         cfgDatabasePlatform := lastPlatform (cfgDatabasePlatform c) l;
         cfgExternalURL := lastURL (cfgExternalURL c) l |}.
Proof.
  induction l as [|o l IH]; intros c.
  - destruct c; reflexivity.
  - destruct o; simpl; rewrite IH; reflexivity.
Qed.

Lemma lastType_cases (d : SpanType) (l : list PublicOption) :
  lastType d l = match last l with Some o => typeOf o | None => d end.
Proof.
  revert d. induction l as [|o l IH]; intros d; [reflexivity|].
  simpl. rewrite IH. destruct l as [|p l]; [reflexivity|].
  change (last (o :: p :: l)) with (last (p :: l)).
  destruct (last (p :: l)) eqn:Hl; [reflexivity|].
  apply last_None in Hl. discriminate Hl.
Qed.

(** X3. For every list of options built by [DatabaseCalls] and
    [ExternalCalls], the configuration that [CreateSpan] folds has: the
    span type of the last option (Unspecified exactly when the list is
    empty, and never Client, Producer or Consumer); the platform of the
    last [DatabaseCalls] of the list, empty when there is none; the URL
    of the last [ExternalCalls] of the list, empty when there is none. *)
Theorem applyOpts_public :
  forall l : list PublicOption,
    let c := applyOpts defaultConfig (List.map toOption l) in
    cfgSpanType c = match last l with Some o => typeOf o | None => Unspecified end
    /\ cfgDatabasePlatform c = lastPlatform "" l
    /\ cfgExternalURL c = lastURL "" l
    /\ (cfgSpanType c = Unspecified <-> l = [])
    /\ (cfgSpanType c = Unspecified \/ cfgSpanType c = Internal
        \/ cfgSpanType c = Server).
Proof.
  intros l c. subst c. rewrite applyOpts_public_from. cbn [cfgSpanType
    cfgDatabasePlatform cfgExternalURL defaultConfig].
  rewrite lastType_cases.
  split; [reflexivity|]. split; [reflexivity|]. split; [reflexivity|].
  destruct (last l) as [o|] eqn:Hl.
  - split.
    + split; [destruct o; discriminate|].
      intros ->. discriminate Hl.
    + destruct o; [right; left|right; right]; reflexivity.
  - split; [|left; reflexivity].
    split; [|reflexivity]. intros _.
    apply last_None in Hl. exact Hl.
Qed.

End ClassifierMore.

(** ** The span methods *)

Module SpanMore.
Import SpanTypes PublicOptions Signoz SpanFrames.

Lemma CreateSpan_run (name : string) (err : option error)
    (opts : list SpanTypeOption) (attrs : list KeyValue) :
  getSpanTypeAttributes (Some (applyOpts defaultConfig opts)) = Some attrs ->
  CreateSpan name err opts
  = Done (tt, {| spanName := name;
                 spanKind := spanTypeMapper_index
                               (cfgSpanType (applyOpts defaultConfig opts));
                 spanCalls :=
                   match err with
                   | Some e => [Span_SetStatus codes_Error (Error e);
                                Span_RecordError e]
                   | None => []
                   end ++ [Span_SetAttributes (List.map toAttribute attrs)] |}).
Proof.
  intros Hattrs. unfold CreateSpan. rewrite Hattrs.
  rewrite <- (SpanSpec.appendAttributes_map attrs).
  destruct err as [e|]; reflexivity.
Qed.

(** X4. For every span name, every error and every list of options
    built by [DatabaseCalls] and [ExternalCalls], [CreateSpan] returns a
    span whose kind and whose attributes are those of the last option
    alone: Internal with [db.system] for a [DatabaseCalls], Server with
    [http.url] for an [ExternalCalls], Unspecified with no attribute for
    the empty list.  A value written by an earlier option is never
    attached, and the kind is never Client, Producer or Consumer. *)
Theorem CreateSpan_public :
  forall (name : string) (err : option error) (l : list PublicOption),
  exists sp : Span,
    CreateSpan name err (List.map toOption l) = Done (tt, sp)
    /\ spanName sp = name
    /\ spanKind sp
       = match last l with
         | None => SpanKindUnspecified
         | Some (OptDatabaseCalls _) => SpanKindInternal
         | Some (OptExternalCalls _) => SpanKindServer
         end
    /\ spanAttributes sp
       = match last l with
         | None => []
         | Some (OptDatabaseCalls p) => [attribute_String "db.system" p]
         | Some (OptExternalCalls u) => [attribute_String "http.url" u]
         end.
Proof.
  intros name err l.
  destruct (ClassifierSpec.getSpanTypeAttributes_not_nil
              (applyOpts defaultConfig (List.map toOption l))) as [attrs Hattrs].
  eexists. split; [apply (CreateSpan_run _ _ _ attrs Hattrs)|].
  split; [reflexivity|].
  assert (Hview : forall k calls,
    spanAttributes {| spanName := name; spanKind := k;
                      spanCalls := match err with
                                   | Some e => [Span_SetStatus codes_Error (Error e);
                                                Span_RecordError e]
                                   | None => []
                                   end ++ [Span_SetAttributes calls] |} = calls).
  { intros k calls. unfold spanAttributes. cbn [spanCalls].
    rewrite flat_map_app. destruct err; simpl; apply app_nil_r. }
  rewrite Hview. cbn [spanKind].
  destruct (last l) as [o|] eqn:Hl.
  - apply last_Some in Hl as [l' ->].
    rewrite List.map_app in Hattrs |- *. cbn [List.map] in Hattrs |- *.
    rewrite ClassifierSpec.applyOpts_snoc in Hattrs |- *.
    destruct o as [p|u]; cbn [toOption DatabaseCalls ExternalCalls config apply]
      in Hattrs |- *.
    + rewrite ClassifierSpec.getSpanTypeAttributes_Internal in Hattrs
        by reflexivity.
      injection Hattrs as <-. split; reflexivity.
    + rewrite ClassifierSpec.getSpanTypeAttributes_Server in Hattrs
        by reflexivity.
      injection Hattrs as <-. split; reflexivity.
  - apply last_None in Hl. subst l. cbn in Hattrs. injection Hattrs as <-.
    split; reflexivity.
Qed.

(** X5. [SetAttributes] and [AddEvent] make one call each on the span,
    whatever the list, empty or not.  The call carries one SDK attribute
    for each [KeyValue], in the order of the list, with the same key and
    the same value: nothing is dropped, merged or reordered, and two
    entries under one key stay two. *)
Theorem attributes_converted_in_order :
  forall (name : string) (keyValue : list KeyValue) (sp : Span),
  exists (attrs : list attribute_KeyValue) (sp1 sp2 : Span),
    SetAttributes keyValue sp = Done (tt, sp1)
    /\ extended sp sp1 [Span_SetAttributes attrs]
    /\ AddEvent name keyValue sp = Done (tt, sp2)
    /\ extended sp sp2 [Span_AddEvent name attrs]
    /\ List.map attribute_Key attrs = List.map Key keyValue
    /\ List.map attribute_Value attrs = List.map Value keyValue.
Proof.
  intros name keyValue sp.
  exists (List.map toAttribute keyValue). eexists. eexists.
  unfold SetAttributes, AddEvent, call.
  rewrite SpanSpec.appendAttributes_map.
  split; [reflexivity|]. split; [repeat split|].
  split; [reflexivity|]. split; [repeat split|].
  rewrite !List.map_map. split; reflexivity.
Qed.

(** X6. [TraceHttpRequest] and [TraceHttpResponse] only annotate the
    span of the context.  [TraceHttpRequest] always returns, after one
    event and one attribute call.  [TraceHttpResponse], when it returns,
    has added one event and nothing else.  Neither sets a status, records
    an error, ends the span or changes its name or kind: a response
    code such as 500 does not mark the span as failed. *)
Theorem http_traces_only_annotate :
  forall (any : Type) (json_Marshal : any -> string + error)
         (token userId queryParam payload : string)
         (code : Z) (message : string) (data errors : any) (sp : Span),
    (exists (sp' : Span) (new : list SpanCall),
        TraceHttpRequest token userId queryParam payload sp = Done (tt, sp')
        /\ extended sp sp' new
        /\ forallb annotates new = true
        /\ spanStatuses sp' = spanStatuses sp)
    /\ match TraceHttpResponse any json_Marshal code message data errors sp with
       | Done (_, sp') =>
           exists attrs : list attribute_KeyValue,
             extended sp sp' [Span_AddEvent "Response" attrs]
             /\ spanStatuses sp' = spanStatuses sp
             /\ spanAttributes sp' = spanAttributes sp
       | Fatal _ => True
       end.
Proof.
  intros any json_Marshal token userId queryParam payload code message
         data errors sp.
  split.
  - eexists. eexists. split; [apply SpanSpec.TraceHttpRequest_run|].
    split; [repeat split|]. split; [reflexivity|].
    unfold spanStatuses. cbn [spanCalls]. rewrite flat_map_app.
    apply app_nil_r.
  - unfold TraceHttpResponse. cbv [mbind M_bind].
    destruct (json_Marshal data) as [d|e]; [|exact I].
    cbv [mret M_ret].
    destruct (json_Marshal errors) as [es|e]; [|exact I].
    cbv [AddEvent call]. eexists.
    split; [repeat split|].
    unfold spanStatuses, spanAttributes. cbn [spanCalls].
    rewrite !flat_map_app. split; apply app_nil_r.
Qed.

(** X7. Giving an error to [CreateSpan] is calling [SetErrorSpan] on the
    span that [CreateSpan] returns without it, but for the order of the
    calls: the two spans have the same name and kind and the same calls
    up to order, hence the same status and the same attributes.  With
    [CreateSpan] the status comes before the attributes, with
    [SetErrorSpan] after them. *)
Theorem CreateSpan_error_is_SetErrorSpan :
  forall (name : string) (e : error) (opts : list SpanTypeOption),
  exists sp0 sp1 sp2 : Span,
    CreateSpan name None opts = Done (tt, sp0)
    /\ SetErrorSpan e sp0 = Done (tt, sp1)
    /\ CreateSpan name (Some e) opts = Done (tt, sp2)
    /\ spanName sp1 = spanName sp2
    /\ spanKind sp1 = spanKind sp2
    /\ Permutation (spanCalls sp1) (spanCalls sp2)
    /\ spanStatuses sp1 = spanStatuses sp2
    /\ spanAttributes sp1 = spanAttributes sp2
    /\ spanCalls sp1 <> spanCalls sp2.
Proof.
  intros name e opts.
  destruct (ClassifierSpec.getSpanTypeAttributes_not_nil
              (applyOpts defaultConfig opts)) as [attrs Hattrs].
  eexists. eexists. eexists.
  split; [apply (CreateSpan_run name None opts attrs Hattrs)|].
  split; [reflexivity|].
  split; [apply (CreateSpan_run name (Some e) opts attrs Hattrs)|].
  cbn [spanName spanKind spanCalls app].
  split; [reflexivity|]. split; [reflexivity|].
  split; [|split; [reflexivity|split; [|discriminate]]].
  - apply (Permutation_app_comm [_] [_; _]).
  - unfold spanAttributes. simpl. rewrite !app_nil_r. reflexivity.
Qed.

End SpanMore.

(** ** The flags that select TLS *)

Module FlagMore.
Import GoStrings Signoz FlagList ToLowerFacts.

Lemma byte_of_val (c : ascii) : byte_of (byte_val c) = c.
Proof. destruct c as [[] [] [] [] [] [] [] []]; reflexivity. Qed.

Lemma byte_val_of (x : Z) : 0 <= x < 256 -> byte_val (byte_of x) = x.
Proof.
  intros Hx.
  assert (Hc : byte_val (ascii_of_N (Z.to_N x)) = x).
  { unfold byte_val. rewrite N_ascii_embedding by lia. lia. }
  rewrite <- Hc at 1. rewrite byte_of_val. exact Hc.
Qed.

Lemma byte_val_inj (a b : ascii) : byte_val a = byte_val b -> a = b.
Proof.
  intros H. rewrite <- (byte_of_val a), <- (byte_of_val b), H. reflexivity.
Qed.

Lemma foldByte_lower_letter (a b : ascii) :
  between 0x61 (byte_val b) 0x7A = true ->
  foldByte a = foldByte b <-> a = b \/ a = upperByte b.
Proof.
  intros Hb. unfold upperByte. rewrite Hb.
  apply between_spec in Hb.
  pose proof (byte_val_range a) as Ha.
  unfold foldByte.
  destruct (between 65 (byte_val b) 90) eqn:Hb'.
  { apply between_spec in Hb'. lia. }
  destruct (between 65 (byte_val a) 90) eqn:Ha'.
  - apply between_spec in Ha'. split.
    + intros H. right. apply byte_val_inj.
      apply (f_equal byte_val) in H.
      rewrite !byte_val_of in * by lia. lia.
    + intros [-> | ->].
      * lia.
      * rewrite byte_val_of in Ha' |- * by lia.
        replace (byte_val b - 32 + 32) with (byte_val b) by lia.
        apply byte_of_val.
  - split; [intros ->; left; reflexivity|].
    intros [-> | ->]; [reflexivity|].
    rewrite byte_val_of in Ha' by lia.
    assert (between 65 (byte_val b - 32) 90 = true) by (apply between_spec; lia).
    congruence.
Qed.

Lemma equalFold_capitalisations (t : string) :
  allBytes (fun c => between 0x61 (byte_val c) 0x7A) t = true ->
  forall s : string, equalFold s t = true <-> In s (capitalisations t).
Proof.
  induction t as [|b t IH]; intros Ht s.
  - destruct s; simpl; [tauto|]. split; [discriminate|].
    intros [H|[]]. discriminate H.
  - simpl in Ht. apply andb_true_iff in Ht as [Hb Ht].
    cbn [capitalisations]. rewrite in_flat_map.
    destruct s as [|a s]; simpl.
    + split; [discriminate|].
      intros (x & _ & [H|[H|[]]]); discriminate H.
    + rewrite andb_true_iff, Ascii.eqb_eq, (foldByte_lower_letter a b Hb),
        (IH Ht s).
      split.
      * intros [[-> | ->] Hs]; exists s; (split; [exact Hs|]);
          [left|right; left]; reflexivity.
      * intros (x & Hx & [H|[H|[]]]); injection H as <- <-;
          (split; [|exact Hx]); [left|right]; reflexivity.
Qed.

Lemma secureOption_selectsTLS (u : Z -> Z) (s : signoz) :
  (forall r, RuneSelf <= r -> RuneSelf <= u r \/ u r = 0x69 \/ u r = 0x6B) ->
  InitTracer_secureOption u s = WithTLSCredentials
  <-> spec_selectsTLS (insecure s) = true.
Proof.
  intros u_high. unfold InitTracer_secureOption, spec_selectsTLS. simpl.
  rewrite !(FlagSpec.ToLower_eqb_equalFold u _ _ u_high) by reflexivity.
  rewrite FlagSpec.equalFold_zero, orb_false_r, orb_assoc.
  match goal with |- context [if ?b then _ else _] => destruct b end;
    split; (reflexivity || discriminate).
Qed.

(** X8. Let [unicode.ToLower] send no rune outside ASCII to an ASCII
    rune other than i and k.  Then [InitTracer] chooses the TLS
    credentials for exactly thirty-five flags: the thirty-two ways of
    writing "false" in lower and upper case, "f", "F" and "0".  They are
    ASCII strings of five bytes or of one: a flag with a space or a line
    end around it, or with a letter from outside ASCII, chooses the
    plaintext transport. *)
Theorem tls_flags_listed :
  forall u : Z -> Z,
    (forall r, RuneSelf <= r -> RuneSelf <= u r \/ u r = 0x69 \/ u r = 0x6B) ->
    forall s : signoz,
      (InitTracer_secureOption u s = WithTLSCredentials
       <-> In (insecure s) tlsFlags)
      /\ List.length tlsFlags = 35%nat
      /\ NoDup tlsFlags
      /\ Forall (fun flag =>
                   allBytes isASCIIByte flag = true
                   /\ (String.length flag = 5%nat \/ String.length flag = 1%nat))
                tlsFlags.
Proof.
  intros u u_high s. split; [|split; [reflexivity|split]].
  - rewrite (secureOption_selectsTLS u s u_high).
    unfold tlsFlags, spec_selectsTLS. cbn [existsb].
    rewrite orb_false_r, !orb_true_iff, !in_app_iff.
    rewrite <- !equalFold_capitalisations by reflexivity.
    rewrite FlagSpec.equalFold_zero, String.eqb_eq. simpl.
    intuition congruence.
  - apply (bool_decide_unpack _). vm_compute. exact I.
  - apply Forall_forall. intros flag Hin. apply list_elem_of_In in Hin.
    vm_compute in Hin.
    repeat (destruct Hin as [<-|Hin]; [split; [reflexivity|auto]|]).
    destruct Hin.
Qed.

(** The theorem at a concrete case table and receiver: "fAlSe" is
    listed, so it selects TLS. *)
Lemma tls_flags_listed_witness :
  InitTracer_secureOption toLower_fragment
    {| serviceName := "orders"; collectorURL := "localhost:4317";
       insecure := "fAlSe" |}
  = WithTLSCredentials.
Proof.
  apply (proj1 (tls_flags_listed toLower_fragment FlagSpec.toLower_fragment_high
                  {| serviceName := "orders"; collectorURL := "localhost:4317";
                     insecure := "fAlSe" |})).
  vm_compute. tauto.
Defined.

End FlagMore.

(** ** InitTracer, from the configuration to the registered provider *)

Module InitMore.
Import GoStrings Signoz SignozInit.

(** X9. For every configuration, [InitTracer] on the receiver that [New]
    returns asks for a client with two options, the transport chosen by
    the flag and the collector URL of the configuration as end point, and
    for a resource named after the service of the configuration.  It
    exits exactly when one of the two constructors fails, with the
    message of the first that does, and then registers nothing.
    Otherwise it registers a provider made of that exporter and that
    resource, and the shutdown it returns is that exporter's.  What was
    registered before plays no part. *)
Theorem InitTracer_outcome :
  forall (u : Z -> Z) (Exporter Resource : Type)
         (otlptrace_New : list otlptracegrpc_Option -> Exporter + error)
         (resource_New : list attribute_KeyValue -> Resource + error)
         (cfg : Config) (registered : option (TracerProvider Exporter Resource)),
    let s := snd (New cfg) in
    let opts := [InitTracer_secureOption u s; WithEndpoint (CollectorURL cfg)] in
    let attrs := [attribute_String "service.name" (ServiceName cfg);
                  attribute_String "library.language" "go"] in
    InitTracer u Exporter Resource otlptrace_New resource_New s registered
    = InitTracer u Exporter Resource otlptrace_New resource_New s None
    /\ match InitTracer u Exporter Resource otlptrace_New resource_New s registered with
       | Done (exporter, now) =>
           otlptrace_New opts = inl exporter
           /\ exists resources,
                resource_New attrs = inl resources
                /\ now = Some {| providerExporter := exporter;
                                 providerResource := resources |}
       | Fatal v =>
           (exists err, otlptrace_New opts = inr err
                        /\ v = "Failed to create exporter: " +:+ Error err)
           \/ (exists exporter err,
                 otlptrace_New opts = inl exporter
                 /\ resource_New attrs = inr err
                 /\ v = "Could not set resources: " +:+ Error err)
       end.
Proof.
  intros u Exporter Resource otlptrace_New resource_New cfg registered s opts attrs.
  split; [reflexivity|].
  unfold InitTracer. subst s opts attrs. cbn [New snd collectorURL serviceName].
  destruct (otlptrace_New _) as [exporter|err] eqn:He.
  - destruct (resource_New _) as [resources|err] eqn:Hr.
    + split; [reflexivity|]. exists resources. split; reflexivity.
    + right. exists exporter, err. repeat split; reflexivity.
  - left. exists err. split; reflexivity.
Qed.

End InitMore.
